(** * Verification of [.github/scripts/claude_review.py]

    A shallow embedding of the review script: Python strings are lists of
    Unicode code points, the input filesystem and the process environment
    are read-only functions, and the effects of the script (lines printed,
    the review document written, requests sent to the completion endpoint,
    exceptions) are threaded through a small state-and-exception monad. *)

From Stdlib Require Import String Ascii.
From Stdlib Require Import List Arith NArith Bool Lia.
Import ListNotations.

(** ** Python strings *)

Module PyStr.

(** A character is a Unicode code point; [len], slicing and indexing of a
    Python [str] count code points, which is what [length], [firstn] and
    [skipn] do on the list. *)
Definition char : Type := N.
Definition str : Type := list char.

Definition str_eq_dec : forall a b : str, {a = b} + {a <> b} :=
  list_eq_dec N.eq_dec.

Definition str_eqb (a b : str) : bool :=
  if str_eq_dec a b then true else false.

(** The constants of the script are written in this file as UTF-8 text
    and decoded to code points. *)
Fixpoint bytes_of (s : String.string) : list N :=
  match s with
  | String.EmptyString => []
  | String.String a t => Ascii.N_of_ascii a :: bytes_of t
  end.

Fixpoint utf8_decode (pending : nat) (acc : N) (bs : list N) : str :=
  match bs with
  | [] => []
  | b :: t =>
      match pending with
      | O =>
          if (b <? 128)%N then b :: utf8_decode 0 0%N t
          else if (b <? 224)%N then utf8_decode 1 (b - 192)%N t
          else if (b <? 240)%N then utf8_decode 2 (b - 224)%N t
          else utf8_decode 3 (b - 240)%N t
      | S O => (acc * 64 + (b - 128))%N :: utf8_decode 0 0%N t
      | S k => utf8_decode k (acc * 64 + (b - 128))%N t
      end
  end.

Definition text (s : String.string) : str := utf8_decode 0 0%N (bytes_of s).
Arguments text s%_string.

Definition nl : char := 10%N.

(** Truthiness of a string: [if s] holds for a non-empty one. *)
Definition truthy (s : str) : bool :=
  match s with [] => false | _ :: _ => true end.

(** [str.lower()], character by character.  The table is the one of the
    code points below 256: the ASCII capitals and the Latin-1 capitals
    U+00C0..U+00DE without the multiplication sign U+00D7 move up by 32.
    Code points from 256 on are left as they are. *)
Definition lower_char (c : char) : char :=
  if ((65 <=? c) && (c <=? 90)
      || (192 <=? c) && (c <=? 222) && negb (c =? 215))%N
  then (c + 32)%N else c.

Definition lower (s : str) : str := map lower_char s.

(** [str.isspace()] on one character: TAB..CR, FS..US, space, NEL, the
    no-break space, the Ogham space mark, U+2000..U+200A, the line and
    paragraph separators, the narrow no-break space, the medium
    mathematical space and the ideographic space. *)
Definition isspace (c : char) : bool :=
  ((9 <=? c) && (c <=? 13) || (28 <=? c) && (c <=? 31)
   || (c =? 32) || (c =? 133) || (c =? 160) || (c =? 5760)
   || (8192 <=? c) && (c <=? 8202)
   || (c =? 8232) || (c =? 8233) || (c =? 8239) || (c =? 8287)
   || (c =? 12288))%N.

Fixpoint lstrip (s : str) : str :=
  match s with
  | [] => []
  | c :: t => if isspace c then lstrip t else s
  end.

Definition rstrip (s : str) : str := rev (lstrip (rev s)).

Definition strip (s : str) : str := rstrip (lstrip s).

Fixpoint startswith (s prefix : str) : bool :=
  match prefix, s with
  | [], _ => true
  | _ :: _, [] => false
  | p :: prefix', c :: s' => (c =? p)%N && startswith s' prefix'
  end.

Definition endswith (s suffix : str) : bool :=
  startswith (rev s) (rev suffix).

(** [s.find(sub)]: the index of the first occurrence, if there is one. *)
Fixpoint find (s sub : str) : option nat :=
  if startswith s sub then Some 0
  else match s with
       | [] => None
       | _ :: t => option_map S (find t sub)
       end.

(** [sub in s]. *)
Definition contains (s sub : str) : bool :=
  match find s sub with Some _ => true | None => false end.

(** [s.split(sep, 1)] for a non-empty separator: at most one cut, at the
    first occurrence. *)
Definition split1 (s sep : str) : list str :=
  match find s sep with
  | Some i => [firstn i s; skipn (i + length sep) s]
  | None => [s]
  end.

(** [sep.join(parts)]. *)
Fixpoint join (sep : str) (parts : list str) : str :=
  match parts with
  | [] => []
  | [p] => p
  | p :: rest => p ++ sep ++ join sep rest
  end.

(** Iterating over a text file: the lines with their terminators, the
    last one as it is when the file does not end in a newline. *)
Fixpoint lines_from (cur : str) (s : str) : list str :=
  match s with
  | [] => match cur with [] => [] | _ :: _ => [rev cur] end
  | c :: t =>
      if (c =? nl)%N then rev (c :: cur) :: lines_from [] t
      else lines_from (c :: cur) t
  end.

Definition readlines (s : str) : list str := lines_from [] s.

End PyStr.

Import PyStr.

(** ** Exceptions, the world, and the monad of the script *)

(** [Exception msg] is any exception of the [Exception] hierarchy
    ([OSError], [UnicodeDecodeError], [IndexError], the errors of the API
    client), [msg] being [str(e)].  [SystemExit] is what [sys.exit]
    raises; [except Exception] does not catch it. *)
Inductive exn : Type :=
| Exception (msg : str)
| SystemExit (code : N).

Inductive result (A : Type) : Type :=
| Ok (a : A)
| Raise (e : exn).
Arguments Ok {A} a.
Arguments Raise {A} e.

(** One call of [client.messages.create]. *)
Record request : Type := mkRequest {
  req_api_key : str;
  req_model : str;
  req_max_tokens : N;
  req_system : str;
  req_messages : list (str * str)   (* role, content *)
}.

(** The text of the content blocks of a response. *)
Definition response : Type := list str.

(** What the script does to the outside: the lines it prints, the files
    it writes (path and content, in order) and the requests it sends. *)
Record world : Type := mkWorld {
  stdout : list str;
  written : list (str * str);
  api_calls : list request
}.

Definition w0 : world := mkWorld [] [] [].

Definition M (A : Type) : Type := world -> result A * world.

Definition ret {A} (a : A) : M A := fun w => (Ok a, w).

Definition bind {A B} (c : M A) (k : A -> M B) : M B :=
  fun w =>
    match c w with
    | (Ok a, w') => k a w'
    | (Raise e, w') => (Raise e, w')
    end.

Definition raise {A} (e : exn) : M A := fun w => (Raise e, w).

Notation "x <- c1 ;; c2" := (bind c1 (fun x => c2))
  (at level 61, c1 at next level, right associativity).
Notation "c1 ;; c2" := (bind c1 (fun _ => c2))
  (at level 61, right associativity).

(** [try: c except Exception as e: h(str(e))]. *)
Definition try_except {A} (c : M A) (h : str -> M A) : M A :=
  fun w =>
    match c w with
    | (Raise (Exception msg), w') => h msg w'
    | r => r
    end.

Definition print (line : str) : M unit :=
  fun w => (Ok tt, mkWorld (stdout w ++ [line]) (written w) (api_calls w)).

(** [with open(path, 'w') as f: f.write(content)]; the output path is
    taken to be writable. *)
Definition write_text (path content : str) : M unit :=
  fun w => (Ok tt, mkWorld (stdout w) (written w ++ [(path, content)])
                           (api_calls w)).

(** [sys.exit(code)]. *)
Definition sys_exit {A} (code : N) : M A := raise (SystemExit code).

(** A [for] loop over a list whose body updates one local variable. *)
Fixpoint for_each {A S} (xs : list A) (s : S) (body : A -> S -> M S) : M S :=
  match xs with
  | [] => ret s
  | x :: rest => s' <- body x s ;; for_each rest s' body
  end.

(** ** The input filesystem and the environment *)

(** What a path names.  [File content]: a file the script can open and
    read, [content] being the text that [f.read()] returns in the mode
    the script opens it with.  [Unreadable err]: the path exists and
    opening or reading it raises, [err] being [str(e)].  [Dir entries]: a
    directory with its entries in the order the system lists them. *)
Inductive node : Type :=
| File (content : str)
| Unreadable (err : str)
| Dir (entries : list str).

(** A path the script passes to [os.path.exists] or [open] names at most
    one node; [None] is a path that does not exist. *)
Definition filesystem : Type := str -> option node.

(** [os.environ]. *)
Definition environ : Type := str -> option str.

Module os.

Definition slash : char := 47%N.

(** [os.path.join(a, b)] on POSIX. *)
Definition path_join (a b : str) : str :=
  if startswith b [slash] then b
  else if negb (truthy a) || endswith a [slash] then a ++ b
  else a ++ [slash] ++ b.

Fixpoint until_slash (s : str) : str :=
  match s with
  | [] => []
  | c :: t => if (c =? slash)%N then [] else c :: until_slash t
  end.

(** [os.path.basename(p)]: what follows the last slash. *)
Definition path_basename (p : str) : str := rev (until_slash (rev p)).

(** [os.path.exists(p)]. *)
Definition path_exists (fs : filesystem) (p : str) : bool :=
  match fs p with Some _ => true | None => false end.

(** [os.environ.get(name)]. *)
Definition environ_get (env : environ) (name : str) : option str := env name.

(** [os.environ.get(name, default)]. *)
Definition environ_get_default (env : environ) (name default : str) : str :=
  match env name with Some v => v | None => default end.

End os.

Definition quoted (p : str) : str := text "'" ++ p ++ text "'".

(** [with open(path, 'r', ...) as f: f.read()]. *)
Definition read_text (fs : filesystem) (path : str) : M str :=
  match fs path with
  | Some (File content) => ret content
  | Some (Unreadable err) => raise (Exception err)
  | Some (Dir _) =>
      raise (Exception (text "[Errno 21] Is a directory: " ++ quoted path))
  | None =>
      raise (Exception (text "[Errno 2] No such file or directory: "
                          ++ quoted path))
  end.

(** [glob.glob(os.path.join(dir, "*.md"))]: the entries of [dir] whose
    name ends in [.md] and does not start with a dot, in listing order,
    each joined to [dir]; nothing when [dir] cannot be listed. *)
Definition glob_md (fs : filesystem) (dir : str) : list str :=
  match fs dir with
  | Some (Dir entries) =>
      map (os.path_join dir)
          (filter (fun name => negb (startswith name (text "."))
                               && endswith name (text ".md"))
                  entries)
  | _ => []
  end.

(** ** The loaders *)

Definition ai_dev_kit_path : str := text "/tmp/ai-dev-kit".

Definition priority_files : list str :=
  [ text "CLAUDE.md";
    text "docs/AI_QUICK_RULES.md";
    text "docs/AI_DEVELOPER_GUIDE.md" ].

Definition patterns_dir : str :=
  os.path_join ai_dev_kit_path (text "docs/patterns").

Definition knowledge_separator : str := [nl] ++ text "---" ++ [nl].

Definition diff_file : str := text "/tmp/pr_diff.patch".

Definition files_list : str := text "/tmp/changed_files.txt".

Definition warning (path err : str) : str :=
  text "Warning: Failed to read " ++ path ++ text ": " ++ err.

Section Loaders.

Variable fs : filesystem.

(** The body of the first loop of [load_ai_dev_kit_knowledge]. *)
Definition load_priority_file (rel_path : str) (knowledge_parts : list str)
  : M (list str) :=
  let full_path := os.path_join ai_dev_kit_path rel_path in
  if os.path_exists fs full_path then
    try_except
      (content <- read_text fs full_path ;;
       ret (knowledge_parts
              ++ [text "## " ++ rel_path ++ [nl; nl] ++ content ++ [nl]]))
      (fun e => print (warning full_path e) ;; ret knowledge_parts)
  else ret knowledge_parts.

(** The body of its second loop. *)
Definition load_pattern_file (pattern_file : str) (knowledge_parts : list str)
  : M (list str) :=
  try_except
    (content <- read_text fs pattern_file ;;
     let rel_name := os.path_basename pattern_file in
     ret (knowledge_parts
            ++ [text "## Pattern: " ++ rel_name ++ [nl; nl] ++ content
                  ++ [nl]]))
    (fun e => print (warning pattern_file e) ;; ret knowledge_parts).

Definition load_ai_dev_kit_knowledge : M str :=
  let knowledge_parts := [] in
  knowledge_parts <- for_each priority_files knowledge_parts
                              load_priority_file ;;
  knowledge_parts <-
    (if os.path_exists fs patterns_dir then
       for_each (glob_md fs patterns_dir) knowledge_parts load_pattern_file
     else ret knowledge_parts) ;;
  ret (match knowledge_parts with
       | [] => []
       | _ :: _ => join knowledge_separator knowledge_parts
       end).

Definition load_pr_diff : M str :=
  if os.path_exists fs diff_file then read_text fs diff_file
  else ret [].

(** The filter of [load_changed_files_content]. *)
Definition game_file (filepath : str) : bool :=
  startswith filepath (text "games/")
  && (endswith filepath (text ".lua")
      || endswith filepath (text ".json")
      || endswith filepath (text ".md")).

Definition fence : str := text "```".

(** The body of its loop. *)
Definition load_changed_file (filepath : str) (contents : list str)
  : M (list str) :=
  if game_file filepath then
    if os.path_exists fs filepath then
      try_except
        (content <- read_text fs filepath ;;
         ret (contents
                ++ [text "### " ++ filepath ++ [nl] ++ fence ++ [nl]
                      ++ content ++ [nl] ++ fence ++ [nl]]))
        (fun e => print (warning filepath e) ;; ret contents)
    else ret contents
  else ret contents.

Definition load_changed_files_content : M str :=
  let contents := [] in
  if negb (os.path_exists fs files_list) then ret []
  else
    f <- read_text fs files_list ;;
    let files :=
      map strip (filter (fun line => truthy (strip line)) (readlines f)) in
    contents <- for_each files contents load_changed_file ;;
    ret (join [nl] contents).

End Loaders.

(** ** The prompts and the documents *)

Definition system_prompt_head : str := text "你是一个专业的 UrhoX 游戏引擎 Lua 代码审查专家。你的任务是审查提交到 awesome-urhox-games 仓库的游戏代码。

## 你的专业知识

以下是 UrhoX 引擎的开发文档和最佳实践：

".

Definition system_prompt_tail : str := text "

## 审查标准

1. **代码质量**: Lua 代码是否遵循最佳实践
2. **UrhoX API 使用**: 是否正确使用 UrhoX 引擎 API
3. **游戏逻辑**: 游戏逻辑是否合理、是否有明显 bug
4. **性能**: 是否有性能问题（如 Update 中的频繁分配）
5. **安全性**: 是否有安全隐患
6. **项目规范**: 是否符合 awesome-urhox-games 的项目规范（game.json、README.md 等）

## 输出格式

请用中文回复，格式如下：
- 使用 emoji 使审查更易读
- 分类列出问题（严重 🔴、警告 🟡、建议 🟢）
- 对每个问题给出具体的代码位置和修改建议
- 最后给出总体评价和是否建议合并
".

Definition knowledge_fallback : str := text "（知识库加载失败，请基于通用 Lua 最佳实践进行审查）".

Definition user_message_1 : str := text "请审查以下 Pull Request #".

Definition user_message_2 : str := text " 的代码变更：

## 用户特别要求
".

Definition instruction_fallback : str := text "（无特别要求，请进行全面审查）".

Definition user_message_3 : str := text "

## PR Diff
```diff
".

Definition diff_fallback : str := text "（无法获取 diff）".

Definition user_message_4 : str := text "
```

## 变更文件完整内容
".

Definition changed_files_fallback : str := text "（无游戏相关文件变更）".

Definition user_message_5 : str := text "

请开始代码审查。
".

Definition result_1 : str := text "## 🤖 Claude Code Review

> 由 Claude AI 自动生成的代码审查报告
> PR #".

Definition result_2 : str := text " | 触发者: @claude 命令

---

".

Definition result_3 : str := text "

---
<sub>🔗 Powered by [Claude](https://anthropic.com) | 知识来源: [UrhoX AI Dev Kit](https://urhox-demo-platform.spark.xd.com/ai-dev-kit/pd/stable/ai-dev-kit.zip)</sub>
".

Definition error_msg_1 : str := text "## ❌ Claude Code Review Failed

抱歉，代码审查过程中出现错误：

```
".

Definition error_msg_2 : str := text "
```

请检查 `ANTHROPIC_API_KEY` 配置是否正确。
".

Definition missing_key_msg : str := text "❌ **Error**: `ANTHROPIC_API_KEY` secret is not configured.

Please add your Anthropic API key in repository Settings → Secrets → Actions.".

Definition completed_line : str := text "✅ Code review completed successfully".

Definition review_result_md : str := text "/tmp/review_result.md".

Definition trigger : str := text "@claude".

Definition model_id : str := text "claude-sonnet-4-20250514".

(** The instruction taken from the comment that triggered the run. *)
Definition user_instruction_of (comment_body : str) : str :=
  let user_instruction := [] in
  if contains (lower comment_body) trigger then
    let parts := split1 (lower comment_body) trigger in
    if (1 <? length parts)%nat then strip (nth 1 parts []) else user_instruction
  else user_instruction.

(** The three limits of the slices [[:50000]], [[:30000]] and [[:20000]]. *)
Definition knowledge_limit : nat := N.to_nat 50000.
Definition diff_limit : nat := N.to_nat 30000.
Definition changed_files_limit : nat := N.to_nat 20000.

Definition system_prompt_of (knowledge : str) : str :=
  system_prompt_head
    ++ (if truthy knowledge then firstn knowledge_limit knowledge
        else knowledge_fallback)
    ++ system_prompt_tail.

Definition user_message_of (pr_number user_instruction pr_diff changed_files
                            : str) : str :=
  user_message_1 ++ pr_number ++ user_message_2
    ++ (if truthy user_instruction then user_instruction
        else instruction_fallback)
    ++ user_message_3
    ++ (if truthy pr_diff then firstn diff_limit pr_diff else diff_fallback)
    ++ user_message_4
    ++ (if truthy changed_files then firstn changed_files_limit changed_files
        else changed_files_fallback)
    ++ user_message_5.

Definition review_document (pr_number review_content : str) : str :=
  result_1 ++ pr_number ++ result_2 ++ review_content ++ result_3.

Definition failure_document (e : str) : str :=
  error_msg_1 ++ e ++ error_msg_2.

(** ** The script *)

Section Script.

Variable env : environ.
Variable fs : filesystem.

(** The completion endpoint: what one request is answered with. *)
Variable api : request -> result response.

(** [client.messages.create(...)]. *)
Definition messages_create (req : request) : M response :=
  fun w => (api req, mkWorld (stdout w) (written w) (api_calls w ++ [req])).

(** [response.content[0].text]. *)
Definition first_text (r : response) : M str :=
  match r with
  | [] => raise (Exception (text "list index out of range"))
  | block :: _ => ret block
  end.

(** The script from the point where the credential is known to be set. *)
Definition review_with_key (api_key : str) : M unit :=
  let pr_number :=
    os.environ_get_default env (text "PR_NUMBER") (text "unknown") in
  let comment_body :=
    os.environ_get_default env (text "COMMENT_BODY") [] in
  let user_instruction := user_instruction_of comment_body in
  knowledge <- load_ai_dev_kit_knowledge fs ;;
  pr_diff <- load_pr_diff fs ;;
  changed_files <- load_changed_files_content fs ;;
  let system_prompt := system_prompt_of knowledge in
  let user_message :=
    user_message_of pr_number user_instruction pr_diff changed_files in
  try_except
    (response <-
       messages_create
         (mkRequest api_key model_id 4096 system_prompt
                    [(text "user", user_message)]) ;;
     review_content <- first_text response ;;
     let result := review_document pr_number review_content in
     write_text review_result_md result ;;
     print completed_line)
    (fun e =>
       let error_msg := failure_document e in
       write_text review_result_md error_msg ;;
       print (text "❌ Error: " ++ e) ;;
       sys_exit 1).

Definition run_claude_review : M unit :=
  let api_key := os.environ_get env (text "ANTHROPIC_API_KEY") in
  match api_key with
  | Some ((_ :: _) as api_key) => review_with_key api_key
  | _ =>
      let error_msg := missing_key_msg in
      write_text review_result_md error_msg
  end.

(** The process: what it did and the status it exits with.  An exception
    that reaches the top level ends the process with a traceback and
    status 1. *)
Record outcome : Type := mkOutcome {
  exit_status : N;
  traceback : option str;
  effects : world
}.

Definition main : outcome :=
  match run_claude_review w0 with
  | (Ok _, w) => mkOutcome 0 None w
  | (Raise (SystemExit code), w) => mkOutcome code None w
  | (Raise (Exception msg), w) => mkOutcome 1 (Some msg) w
  end.

End Script.

(** * Characterisations used in the statements *)

(** Printing some lines, nothing else. *)
Definition logged (w : world) (ls : list str) : world :=
  mkWorld (stdout w ++ ls) (written w) (api_calls w).

Section Characterisations.

Variable fs : filesystem.

(** [path] names a file that is read without an exception. *)
Definition readable (path : str) : bool :=
  match fs path with Some (File _) => true | _ => false end.

Definition content_of (path : str) : str :=
  match fs path with Some (File content) => content | _ => [] end.

(** What reading [path] raises, when it raises. *)
Definition read_error (path : str) : option str :=
  match fs path with
  | Some (File _) => None
  | Some (Unreadable err) => Some err
  | Some (Dir _) => Some (text "[Errno 21] Is a directory: " ++ quoted path)
  | None =>
      Some (text "[Errno 2] No such file or directory: " ++ quoted path)
  end.

(** The block of a priority file and of a pattern file. *)
Definition priority_block (rel_path : str) : str :=
  text "## " ++ rel_path ++ [nl; nl]
    ++ content_of (os.path_join ai_dev_kit_path rel_path) ++ [nl].

Definition pattern_block (pattern_file : str) : str :=
  text "## Pattern: " ++ os.path_basename pattern_file ++ [nl; nl]
    ++ content_of pattern_file ++ [nl].

Definition priority_readable (rel_path : str) : bool :=
  readable (os.path_join ai_dev_kit_path rel_path).

(** What one turn of each loop of the knowledge loader appends and
    prints. *)
Definition priority_part (rel_path : str) : list str :=
  if priority_readable rel_path then [priority_block rel_path] else [].

Definition priority_warning (rel_path : str) : list str :=
  let full_path := os.path_join ai_dev_kit_path rel_path in
  match fs full_path, read_error full_path with
  | Some _, Some err => [warning full_path err]
  | _, _ => []
  end.

Definition pattern_part (pattern_file : str) : list str :=
  if readable pattern_file then [pattern_block pattern_file] else [].

Definition pattern_warning (pattern_file : str) : list str :=
  match read_error pattern_file with
  | Some err => [warning pattern_file err]
  | None => []
  end.

(** The paths of the changed-file list in the words of the
    specification: one per line, surrounding whitespace trimmed, blank
    lines ignored. *)
Definition listed_paths (f : str) : list str :=
  filter truthy (map strip (readlines f)).

(** The block of a changed file. *)
Definition changed_file_block (filepath : str) : str :=
  text "### " ++ filepath ++ [nl] ++ fence ++ [nl]
    ++ content_of filepath ++ [nl] ++ fence ++ [nl].

(** A listed path contributes a block: it passes the filter and is read. *)
Definition contributes (filepath : str) : bool :=
  game_file filepath && readable filepath.

Definition changed_file_part (filepath : str) : list str :=
  if contributes filepath then [changed_file_block filepath] else [].

Definition changed_file_warning (filepath : str) : list str :=
  if game_file filepath then
    match fs filepath, read_error filepath with
    | Some _, Some err => [warning filepath err]
    | _, _ => []
    end
  else [].

(** The three loaders in the order the script calls them. *)
Definition load_inputs : M (str * str * str) :=
  knowledge <- load_ai_dev_kit_knowledge fs ;;
  pr_diff <- load_pr_diff fs ;;
  changed_files <- load_changed_files_content fs ;;
  ret (knowledge, pr_diff, changed_files).

End Characterisations.

(** The instruction in the words of the specification: the trimmed
    remainder of the comment text after the first occurrence of the
    keyword, compared without regard to case; empty without one. *)
Fixpoint find_ci (s kw : str) : option nat :=
  if startswith (lower s) (lower kw) then Some 0
  else match s with
       | [] => None
       | _ :: t => option_map S (find_ci t kw)
       end.

Definition spec_instruction (comment_body : str) : str :=
  match find_ci comment_body trigger with
  | Some i => strip (skipn (i + length trigger) comment_body)
  | None => []
  end.

(** The request the script sends for given inputs. *)
Definition pr_number_of (env : environ) : str :=
  os.environ_get_default env (text "PR_NUMBER") (text "unknown").

Definition comment_body_of (env : environ) : str :=
  os.environ_get_default env (text "COMMENT_BODY") [].

Definition request_of (env : environ) (api_key knowledge pr_diff changed_files
                                        : str) : request :=
  mkRequest api_key model_id 4096 (system_prompt_of knowledge)
    [(text "user",
      user_message_of (pr_number_of env)
                      (user_instruction_of (comment_body_of env))
                      pr_diff changed_files)].

(** Concrete environments and filesystems, given by their bindings. *)
Fixpoint lookup {V} (bindings : list (str * V)) (k : str) : option V :=
  match bindings with
  | [] => None
  | (k', v) :: rest => if str_eqb k k' then Some v else lookup rest k
  end.

Definition env_of (bindings : list (str * str)) : environ := lookup bindings.

Definition fs_of (bindings : list (str * node)) : filesystem :=
  lookup bindings.

(** A changed-file list with paths inside and outside the filter, blank
    lines and padded lines, and one listed game file that cannot be
    read. *)
Definition fs_games : filesystem :=
  fs_of [ (files_list, File (text "games/x.lua

README.md
  games/y.json  
games/z.md
src/a.lua
"));
          (text "games/x.lua", File (text "X"));
          (text "games/y.json", Unreadable (text "denied"));
          (text "games/z.md", File (text "Z"));
          (text "README.md", File (text "R"));
          (text "src/a.lua", File (text "A")) ].

(** A list without any game file. *)
Definition fs_no_games : filesystem :=
  fs_of [ (files_list, File (text "README.md
src/a.lua"));
          (text "README.md", File (text "R"));
          (text "src/a.lua", File (text "A")) ].

(** A run with the credential set. *)
Definition env_key : environ :=
  env_of [ (text "ANTHROPIC_API_KEY", text "sk-test");
           (text "PR_NUMBER", text "7");
           (text "COMMENT_BODY", text "@claude please review") ].

(** A run without it, the other variables set. *)
Definition env_no_key : environ :=
  env_of [ (text "PR_NUMBER", text "7");
           (text "COMMENT_BODY", text "@claude please review") ].

(** A comment that does not name the keyword. *)
Definition env_no_trigger : environ :=
  env_of [ (text "ANTHROPIC_API_KEY", text "sk-test");
           (text "PR_NUMBER", text "7");
           (text "COMMENT_BODY", text "looks good to me") ].

Definition permission_denied (path : str) : str :=
  text "[Errno 13] Permission denied: " ++ quoted path.

(** The diff file is there and cannot be opened. *)
Definition fs_diff_unreadable : filesystem :=
  fs_of [ (diff_file, Unreadable (permission_denied diff_file)) ].

(** The changed-file list is there and cannot be opened. *)
Definition fs_list_unreadable : filesystem :=
  fs_of [ (files_list, Unreadable (permission_denied files_list)) ].

(** An endpoint that answers, and one that fails. *)
Definition api_lgtm : request -> result response :=
  fun _ => Ok [text "LGTM"].

Definition api_down : request -> result response :=
  fun _ => Raise (Exception (text "Connection error.")).

(** What the script does with the answer [r] to its request [req], from
    the world [w] the loaders have left. *)
Definition answered (env : environ) (req : request) (w : world)
           (r : result response) : result unit * world :=
  let failed e :=
    (Raise (SystemExit 1),
     mkWorld (stdout w ++ [text "❌ Error: " ++ e])
             (written w ++ [(review_result_md, failure_document e)])
             (api_calls w ++ [req])) in
  match r with
  | Ok (block :: _) =>
      (Ok tt,
       mkWorld (stdout w ++ [completed_line])
               (written w
                  ++ [(review_result_md,
                       review_document (pr_number_of env) block)])
               (api_calls w ++ [req]))
  | Ok [] => failed (text "list index out of range")
  | Raise (Exception e) => failed e
  | Raise (SystemExit code) =>
      (Raise (SystemExit code),
       mkWorld (stdout w) (written w) (api_calls w ++ [req]))
  end.

(** The credential as [if not api_key] sees it. *)
Definition credential (env : environ) : option str :=
  match env (text "ANTHROPIC_API_KEY") with
  | Some ((_ :: _) as api_key) => Some api_key
  | _ => None
  end.

(** A request as the script builds them. *)
Definition well_formed_request (env : environ) (req : request) : Prop :=
  credential env = Some (req_api_key req)
  /\ req_model req = model_id
  /\ req_max_tokens req = 4096%N
  /\ map fst (req_messages req) = [text "user"].

(** An environment whose credential is set and empty. *)
Definition env_empty_key : environ :=
  env_of [ (text "ANTHROPIC_API_KEY", []);
           (text "PR_NUMBER", text "7") ].

(** An endpoint that answers without any content block. *)
Definition api_empty : request -> result response := fun _ => Ok [].

(** [fs_games] without its [README.md], a path outside the filter. *)
Definition fs_games_no_readme : filesystem :=
  fun path => if str_eqb path (text "README.md") then None
              else fs_games path.

(** A comment that is the keyword and whitespace. *)
Definition bare_mention : str := text "@Claude  
".

(** * Properties *)

Example text_ascii : text "@claude" = [64; 99; 108; 97; 117; 100; 101]%N.
Proof. reflexivity. Qed.

Example text_cjk : text "❌ 抱歉" = [10060; 32; 25265; 27465]%N.
Proof. reflexivity. Qed.

Example text_emoji : text "🤖" = [129302]%N.
Proof. reflexivity. Qed.

Example split1_ex :
  split1 (text "a@claude b@claude c") (text "@claude")
  = [text "a"; text " b@claude c"].
Proof. reflexivity. Qed.

Example strip_ex : strip (text "  fix this
 ") = text "fix this".
Proof. reflexivity. Qed.

Example readlines_ex :
  readlines (text "a
b") = [text "a
"; text "b"].
Proof. reflexivity. Qed.


(** ** The monad and the loops *)

Lemma logged_nil w : logged w [] = w.
Proof. destruct w; unfold logged; simpl. now rewrite app_nil_r. Qed.

Lemma logged_logged w a b : logged (logged w a) b = logged w (a ++ b).
Proof. unfold logged; simpl. now rewrite app_assoc. Qed.

Lemma print_logged line w : print line w = (Ok tt, logged w [line]).
Proof. reflexivity. Qed.

(** A loop whose body appends [g x] to the variable and prints [l x]
    appends and prints, in the order of the list, all of them. *)
Lemma for_each_appends {A B} (g : A -> list B) (l : A -> list str)
      (body : A -> list B -> M (list B)) :
  (forall x acc w, body x acc w = (Ok (acc ++ g x), logged w (l x))) ->
  forall xs acc w,
    for_each xs acc body w
    = (Ok (acc ++ flat_map g xs), logged w (flat_map l xs)).
Proof.
  intros Hbody xs; induction xs as [|x xs IH]; intros acc w; simpl.
  - unfold ret. now rewrite app_nil_r, logged_nil.
  - unfold bind. rewrite Hbody, IH, logged_logged, app_assoc. reflexivity.
Qed.

(** ** The knowledge loader *)

Section KnowledgeLoader.

Variable fs : filesystem.

Lemma load_priority_file_eq rel_path acc w :
  load_priority_file fs rel_path acc w
  = (Ok (acc ++ priority_part fs rel_path),
     logged w (priority_warning fs rel_path)).
Proof.
  unfold load_priority_file, priority_part, priority_warning, priority_block,
    priority_readable, readable, content_of, read_error,
    os.path_exists, try_except, read_text, bind, ret, raise.
  destruct (fs (os.path_join ai_dev_kit_path rel_path)) as [[c|err|es]|];
    rewrite ?print_logged, ?app_nil_r, ?logged_nil; reflexivity.
Qed.

Lemma load_pattern_file_eq pattern_file acc w :
  load_pattern_file fs pattern_file acc w
  = (Ok (acc ++ pattern_part fs pattern_file),
     logged w (pattern_warning fs pattern_file)).
Proof.
  unfold load_pattern_file, pattern_part, pattern_warning, pattern_block,
    readable, content_of, read_error, try_except, read_text, bind, ret, raise.
  destruct (fs pattern_file) as [[c|err|es]|];
    rewrite ?print_logged, ?app_nil_r, ?logged_nil; reflexivity.
Qed.

Lemma join_nil_or sep (parts : list str) :
  match parts with [] => [] | _ :: _ => join sep parts end = join sep parts.
Proof. now destruct parts. Qed.

Lemma glob_md_missing dir : fs dir = None -> glob_md fs dir = [].
Proof. unfold glob_md; now intros ->. Qed.

(** One turn appends a block exactly when the file is read. *)
Lemma flat_map_if {A B} (c : A -> bool) (f : A -> B) (xs : list A) :
  flat_map (fun x => if c x then [f x] else []) xs = map f (filter c xs).
Proof.
  induction xs as [|x xs IH]; simpl; [reflexivity|].
  destruct (c x); simpl; now rewrite IH.
Qed.

(** The loader as a function of the filesystem; it never raises. *)
Lemma load_ai_dev_kit_knowledge_eq w :
  load_ai_dev_kit_knowledge fs w
  = (Ok (join knowledge_separator
              (map (priority_block fs)
                   (filter (priority_readable fs) priority_files)
                 ++ map (pattern_block fs)
                        (filter (readable fs) (glob_md fs patterns_dir)))),
     logged w (flat_map (priority_warning fs) priority_files
                 ++ flat_map (pattern_warning fs) (glob_md fs patterns_dir))).
Proof.
  rewrite <- !flat_map_if.
  change (load_ai_dev_kit_knowledge fs w
          = (Ok (join knowledge_separator
                   (flat_map (priority_part fs) priority_files
                      ++ flat_map (pattern_part fs) (glob_md fs patterns_dir))),
             logged w (flat_map (priority_warning fs) priority_files
                         ++ flat_map (pattern_warning fs)
                                     (glob_md fs patterns_dir)))).
  unfold load_ai_dev_kit_knowledge, bind.
  rewrite (for_each_appends _ _ _ load_priority_file_eq).
  unfold os.path_exists.
  destruct (fs patterns_dir) as [n|] eqn:Hdir.
  - rewrite (for_each_appends _ _ _ load_pattern_file_eq), logged_logged.
    unfold ret. now rewrite join_nil_or.
  - rewrite (glob_md_missing _ Hdir). unfold ret; simpl flat_map.
    now rewrite join_nil_or, !app_nil_r.
Qed.

End KnowledgeLoader.

(** C7: the knowledge blob is the blocks of the priority files that are
    read, in the order of the priority list, followed by the blocks of the
    pattern files that are read, in the order the glob lists them, all
    joined with the separator; the loader returns it on every filesystem. *)
Theorem knowledge_blob_order (fs : filesystem) (w : world) :
  fst (load_ai_dev_kit_knowledge fs w)
  = Ok (join knowledge_separator
             (map (priority_block fs)
                  (filter (priority_readable fs) priority_files)
                ++ map (pattern_block fs)
                       (filter (readable fs) (glob_md fs patterns_dir)))).
Proof. now rewrite load_ai_dev_kit_knowledge_eq. Qed.

Lemma filter_none {A} (c : A -> bool) (xs : list A) :
  (forall x, In x xs -> c x = false) -> filter c xs = [].
Proof.
  induction xs as [|x xs IH]; intros H; simpl; [reflexivity|].
  rewrite (H x (or_introl eq_refl)). apply IH. intros y Hy. apply H. now right.
Qed.

Lemma flat_map_none {A B} (g : A -> list B) (xs : list A) :
  (forall x, In x xs -> g x = []) -> flat_map g xs = [].
Proof.
  induction xs as [|x xs IH]; intros H; simpl; [reflexivity|].
  rewrite (H x (or_introl eq_refl)). apply IH. intros y Hy. apply H. now right.
Qed.

(** C8: when no priority file exists and the glob matches nothing, the
    knowledge loader returns the empty string and prints nothing, and the
    system prompt of the empty blob carries the fallback sentence between
    the two fixed parts of the template. *)
Theorem no_knowledge_sources (fs : filesystem) (w : world) :
  (forall rel_path, In rel_path priority_files ->
     fs (os.path_join ai_dev_kit_path rel_path) = None) ->
  glob_md fs patterns_dir = [] ->
  load_ai_dev_kit_knowledge fs w = (Ok [], w)
  /\ system_prompt_of []
     = system_prompt_head ++ knowledge_fallback ++ system_prompt_tail.
Proof.
  intros Hprio Hglob. split; [|reflexivity].
  rewrite load_ai_dev_kit_knowledge_eq, Hglob.
  rewrite filter_none, flat_map_none; simpl.
  - now rewrite logged_nil.
  - intros rel Hin. unfold priority_warning. now rewrite (Hprio rel Hin).
  - intros rel Hin. unfold priority_readable, readable.
    now rewrite (Hprio rel Hin).
Qed.

Lemma no_knowledge_sources_witness :
  load_ai_dev_kit_knowledge (fs_of []) w0 = (Ok [], w0)
  /\ system_prompt_of []
     = system_prompt_head ++ knowledge_fallback ++ system_prompt_tail.
Proof.
  apply (no_knowledge_sources (fs_of []) w0).
  - intros rel_path _. reflexivity.
  - reflexivity.
Defined.

(** ** The diff loader *)

Lemma load_pr_diff_eq (fs : filesystem) (w : world) :
  load_pr_diff fs w
  = match fs diff_file with
    | None => (Ok [], w)
    | Some (File content) => (Ok content, w)
    | Some _ =>
        (Raise (Exception match read_error fs diff_file with
                          | Some err => err
                          | None => []
                          end), w)
    end.
Proof.
  unfold load_pr_diff, os.path_exists, read_text, read_error, ret, raise.
  now destruct (fs diff_file) as [[c|err|es]|].
Qed.

(** ** The changed-file loader *)

Section ChangedFileLoader.

Variable fs : filesystem.

Lemma load_changed_file_eq filepath acc w :
  load_changed_file fs filepath acc w
  = (Ok (acc ++ changed_file_part fs filepath),
     logged w (changed_file_warning fs filepath)).
Proof.
  unfold load_changed_file, changed_file_part, changed_file_warning,
    changed_file_block, contributes, readable, content_of, read_error,
    os.path_exists, try_except, read_text, bind, ret, raise.
  destruct (game_file filepath); simpl andb;
    [destruct (fs filepath) as [[c|err|es]|]|];
    rewrite ?print_logged, ?app_nil_r, ?logged_nil; reflexivity.
Qed.

(** Dropping the blank lines and trimming the others, in either order. *)
Lemma files_listed (ls : list str) :
  map strip (filter (fun line => truthy (strip line)) ls)
  = filter truthy (map strip ls).
Proof.
  induction ls as [|l ls IH]; simpl; [reflexivity|].
  destruct (truthy (strip l)); simpl; now rewrite IH.
Qed.

Lemma load_changed_files_content_missing w :
  fs files_list = None -> load_changed_files_content fs w = (Ok [], w).
Proof.
  intros H. unfold load_changed_files_content, os.path_exists.
  now rewrite H.
Qed.

Lemma load_changed_files_content_eq f w :
  fs files_list = Some (File f) ->
  load_changed_files_content fs w
  = (Ok (join [nl] (map (changed_file_block fs)
                        (filter (contributes fs) (listed_paths f)))),
     logged w (flat_map (changed_file_warning fs) (listed_paths f))).
Proof.
  intros H. unfold load_changed_files_content, os.path_exists, read_text.
  rewrite H. change (negb true) with false. cbv iota.
  unfold bind at 1. unfold ret at 1. cbv beta iota.
  rewrite files_listed. fold (listed_paths f). unfold bind.
  rewrite (for_each_appends _ _ _ load_changed_file_eq).
  unfold ret, changed_file_part. now rewrite flat_map_if.
Qed.

Lemma load_changed_files_content_unreadable w :
  readable fs files_list = false -> fs files_list <> None ->
  exists err, load_changed_files_content fs w = (Raise (Exception err), w).
Proof.
  unfold readable, load_changed_files_content, os.path_exists, read_text.
  destruct (fs files_list) as [[c|err|es]|]; intros Hr Hn;
    try discriminate; try congruence; eexists; reflexivity.
Qed.

End ChangedFileLoader.

(** C6: the changed-file loader returns the empty string when the list
    file is absent; when it is read, it returns the blocks, joined by
    newlines and in the order of the list, of exactly the listed paths
    (lines trimmed, blank lines dropped) that start with [games/], end in
    [.lua], [.json] or [.md], and are read; in particular the empty
    string when no listed path does. *)
Theorem changed_files_filter (fs : filesystem) (w : world) :
  (fs files_list = None -> load_changed_files_content fs w = (Ok [], w))
  /\ (forall f, fs files_list = Some (File f) ->
        fst (load_changed_files_content fs w)
        = Ok (join [nl]
                (map (changed_file_block fs)
                     (filter (fun filepath =>
                                startswith filepath (text "games/")
                                && (endswith filepath (text ".lua")
                                    || endswith filepath (text ".json")
                                    || endswith filepath (text ".md"))
                                && readable fs filepath)
                             (listed_paths f))))
        /\ ((forall filepath, In filepath (listed_paths f) ->
               contributes fs filepath = false) ->
            fst (load_changed_files_content fs w) = Ok [])).
Proof.
  split; [apply load_changed_files_content_missing|].
  intros f Hf. rewrite (load_changed_files_content_eq fs f w Hf). simpl fst.
  split; [reflexivity|].
  intros Hnone. now rewrite (filter_none _ _ Hnone).
Qed.

Lemma changed_files_filter_witness :
  load_changed_files_content (fs_of []) w0 = (Ok [], w0)
  /\ fst (load_changed_files_content fs_games w0)
     = Ok (text "### games/x.lua
```
X
```

### games/z.md
```
Z
```
")
  /\ fst (load_changed_files_content fs_no_games w0) = Ok [].
Proof.
  split; [|split].
  - apply (proj1 (changed_files_filter (fs_of []) w0)). reflexivity.
  - rewrite (proj1 (proj2 (changed_files_filter fs_games w0) _ eq_refl)).
    vm_compute. reflexivity.
  - apply (proj2 (proj2 (changed_files_filter fs_no_games w0) _ eq_refl)).
    intros filepath Hin. vm_compute in Hin.
    destruct Hin as [<-|[<-|[]]]; vm_compute; reflexivity.
Defined.

(** ** The instruction of the comment *)

(** Between the space and NEL, and between the no-break space and the
    Ogham space mark, no character is whitespace. *)
Lemma isspace_letters c :
  (33 <= c <= 132 \/ 161 <= c <= 5759)%N -> isspace c = false.
Proof.
  intros Hc. unfold isspace.
  assert (Hl : forall a b : N, (b < a)%N -> (a <=? b)%N = false)
    by (intros; apply N.leb_gt; assumption).
  assert (Hn : forall a b : N, a <> b -> (a =? b)%N = false)
    by (intros; apply N.eqb_neq; assumption).
  rewrite (Hl c 13%N), (Hl c 31%N), (Hl 8192%N c) by lia.
  rewrite (Hn c 32%N), (Hn c 133%N), (Hn c 160%N), (Hn c 5760%N) by lia.
  rewrite (Hn c 8232%N), (Hn c 8233%N), (Hn c 8239%N) by lia.
  rewrite (Hn c 8287%N), (Hn c 12288%N) by lia.
  now rewrite !andb_false_r.
Qed.

Lemma isspace_lower_char c : isspace (lower_char c) = isspace c.
Proof.
  unfold lower_char.
  destruct ((65 <=? c) && (c <=? 90)
            || (192 <=? c) && (c <=? 222) && negb (c =? 215))%N eqn:Hup;
    [|reflexivity].
  assert (Hc : (65 <= c <= 90 \/ 192 <= c <= 222)%N).
  { apply orb_true_iff in Hup. destruct Hup as [H|H].
    - apply andb_true_iff in H. destruct H as [H1 H2].
      apply N.leb_le in H1, H2. lia.
    - apply andb_true_iff in H. destruct H as [H _].
      apply andb_true_iff in H. destruct H as [H1 H2].
      apply N.leb_le in H1, H2. lia. }
  rewrite !isspace_letters by lia. reflexivity.
Qed.

Lemma lstrip_lower s : lstrip (lower s) = lower (lstrip s).
Proof.
  induction s as [|c s IH]; [reflexivity|].
  change (lower (c :: s)) with (lower_char c :: lower s).
  simpl lstrip. rewrite isspace_lower_char.
  destruct (isspace c); [exact IH|reflexivity].
Qed.

Lemma strip_lower s : strip (lower s) = lower (strip s).
Proof.
  unfold strip, rstrip. rewrite lstrip_lower.
  unfold lower at 1. rewrite <- map_rev. fold (lower (rev (lstrip s))).
  rewrite lstrip_lower. unfold lower. now rewrite map_rev.
Qed.




Lemma user_instruction_of_absent (comment_body : str) :
  contains (lower comment_body) trigger = false ->
  user_instruction_of comment_body = [].
Proof. unfold user_instruction_of. now intros ->. Qed.

(** C1, on the comment [@Claude Check Main.lua]: the script extracts
    [check main.lua], the lowercased text; the trimmed remainder of the
    comment text after the keyword is [Check Main.lua]. *)
Theorem user_instruction_is_lowercased :
  user_instruction_of (text "@Claude Check Main.lua") = text "check main.lua"
  /\ spec_instruction (text "@Claude Check Main.lua") = text "Check Main.lua"
  /\ user_instruction_of (text "@Claude Check Main.lua")
     <> spec_instruction (text "@Claude Check Main.lua").
Proof.
  split; [reflexivity|]. split; [reflexivity|].
  vm_compute. discriminate.
Qed.

(** ** The limits *)

Lemma truthy_longer (n : nat) (s : str) : n < length s -> truthy s = true.
Proof. destruct s; simpl; [lia|reflexivity]. Qed.

Lemma firstn_exact (n : nat) (s : str) :
  n < length s -> length (firstn n s) = n.
Proof. intros H. apply firstn_length_le. lia. Qed.

(** C3: a knowledge blob of more than 50,000 characters enters the system
    prompt as its first 50,000 characters, a diff of more than 30,000
    characters enters the user message as its first 30,000 and a
    changed-file text of more than 20,000 characters as its first 20,000;
    each sits between the fixed parts of the template, whatever the other
    inputs are. *)
Theorem truncation_limits :
  (forall knowledge,
     (50000 < N.of_nat (length knowledge))%N ->
     system_prompt_of knowledge
     = system_prompt_head ++ firstn (N.to_nat 50000) knowledge
         ++ system_prompt_tail
     /\ N.of_nat (length (firstn (N.to_nat 50000) knowledge)) = 50000%N)
  /\ (forall pr_number user_instruction pr_diff changed_files,
        (30000 < N.of_nat (length pr_diff))%N ->
        user_message_of pr_number user_instruction pr_diff changed_files
        = user_message_1 ++ pr_number ++ user_message_2
            ++ (if truthy user_instruction then user_instruction
                else instruction_fallback)
            ++ user_message_3
            ++ firstn (N.to_nat 30000) pr_diff
            ++ user_message_4
            ++ (if truthy changed_files
                then firstn (N.to_nat 20000) changed_files
                else changed_files_fallback)
            ++ user_message_5
        /\ N.of_nat (length (firstn (N.to_nat 30000) pr_diff)) = 30000%N)
  /\ (forall pr_number user_instruction pr_diff changed_files,
        (20000 < N.of_nat (length changed_files))%N ->
        user_message_of pr_number user_instruction pr_diff changed_files
        = user_message_1 ++ pr_number ++ user_message_2
            ++ (if truthy user_instruction then user_instruction
                else instruction_fallback)
            ++ user_message_3
            ++ (if truthy pr_diff then firstn (N.to_nat 30000) pr_diff
                else diff_fallback)
            ++ user_message_4
            ++ firstn (N.to_nat 20000) changed_files
            ++ user_message_5
        /\ N.of_nat (length (firstn (N.to_nat 20000) changed_files))
           = 20000%N).
Proof.
  split; [|split].
  - intros knowledge H.
    assert (Hn : N.to_nat 50000 < length knowledge) by lia.
    unfold system_prompt_of, knowledge_limit.
    rewrite (truthy_longer _ _ Hn), (firstn_exact _ _ Hn).
    split; [reflexivity|lia].
  - intros pr ins d c H.
    assert (Hn : N.to_nat 30000 < length d) by lia.
    unfold user_message_of, diff_limit, changed_files_limit.
    rewrite (truthy_longer _ _ Hn), (firstn_exact _ _ Hn).
    split; [reflexivity|lia].
  - intros pr ins d c H.
    assert (Hn : N.to_nat 20000 < length c) by lia.
    unfold user_message_of, diff_limit, changed_files_limit.
    rewrite (truthy_longer _ _ Hn), (firstn_exact _ _ Hn).
    split; [reflexivity|lia].
Qed.

Lemma truncation_limits_witness :
  (system_prompt_of (repeat 97%N (N.to_nat 50001))
   = system_prompt_head
       ++ firstn (N.to_nat 50000) (repeat 97%N (N.to_nat 50001))
       ++ system_prompt_tail
   /\ N.of_nat (length (firstn (N.to_nat 50000)
                               (repeat 97%N (N.to_nat 50001)))) = 50000%N)
  /\ N.of_nat (length (firstn (N.to_nat 30000)
                              (repeat 43%N (N.to_nat 30001)))) = 30000%N
  /\ N.of_nat (length (firstn (N.to_nat 20000)
                              (repeat 35%N (N.to_nat 20001)))) = 20000%N.
Proof.
  destruct truncation_limits as (Hk & Hd & Hc).
  split; [|split].
  - apply Hk. rewrite repeat_length. lia.
  - apply (Hd (text "7") [] (repeat 43%N (N.to_nat 30001)) []).
    rewrite repeat_length. lia.
  - apply (Hc (text "7") [] [] (repeat 35%N (N.to_nat 20001))).
    rewrite repeat_length. lia.
Defined.

(** ** The run *)

Section Run.

Variable env : environ.
Variable fs : filesystem.
Variable api : request -> result response.

(** The loaders only print. *)
Lemma load_ai_dev_kit_knowledge_logs w :
  exists knowledge ls,
    load_ai_dev_kit_knowledge fs w = (Ok knowledge, logged w ls).
Proof. rewrite load_ai_dev_kit_knowledge_eq. eauto. Qed.

Lemma load_pr_diff_logs w r w' :
  load_pr_diff fs w = (r, w') -> w' = w.
Proof.
  rewrite load_pr_diff_eq.
  destruct (fs diff_file) as [[c|err|es]|]; congruence.
Qed.

Lemma load_changed_files_content_logs w r w' :
  load_changed_files_content fs w = (r, w') -> exists ls, w' = logged w ls.
Proof.
  destruct (fs files_list) as [[f|err|es]|] eqn:Hf.
  - rewrite (load_changed_files_content_eq fs f w Hf).
    intros [= _ <-]. eauto.
  - unfold load_changed_files_content, os.path_exists, read_text.
    rewrite Hf. intros [= _ <-]. exists []. now rewrite logged_nil.
  - unfold load_changed_files_content, os.path_exists, read_text.
    rewrite Hf. intros [= _ <-]. exists []. now rewrite logged_nil.
  - rewrite (load_changed_files_content_missing fs w Hf).
    intros [= _ <-]. exists []. now rewrite logged_nil.
Qed.

Lemma load_inputs_logs w r w' :
  load_inputs fs w = (r, w') -> exists ls, w' = logged w ls.
Proof.
  unfold load_inputs, bind.
  destruct (load_ai_dev_kit_knowledge_logs w) as (k & l1 & ->).
  destruct (load_pr_diff fs (logged w l1)) as [[d|e] w2] eqn:Hd;
    apply load_pr_diff_logs in Hd; subst w2.
  - destruct (load_changed_files_content fs (logged w l1)) as [[c|e] w3] eqn:Hc;
      apply load_changed_files_content_logs in Hc; destruct Hc as [l3 ->];
      unfold ret; intros [= _ <-]; rewrite logged_logged; eauto.
  - intros [= _ <-]. eauto.
Qed.

(** The script after the three loaders have returned. *)
Lemma review_with_key_loaded api_key knowledge pr_diff changed_files w :
  load_inputs fs w0 = (Ok (knowledge, pr_diff, changed_files), w) ->
  review_with_key env fs api api_key w0
  = let req := request_of env api_key knowledge pr_diff changed_files in
    let sent := mkWorld (stdout w) (written w) (api_calls w ++ [req]) in
    let failed e :=
      (Raise (SystemExit 1),
       mkWorld (stdout w ++ [text "❌ Error: " ++ e])
               (written w ++ [(review_result_md, failure_document e)])
               (api_calls w ++ [req])) in
    match api req with
    | Ok (block :: _) =>
        (Ok tt,
         mkWorld (stdout w ++ [completed_line])
                 (written w
                    ++ [(review_result_md,
                         review_document (pr_number_of env) block)])
                 (api_calls w ++ [req]))
    | Ok [] => failed (text "list index out of range")
    | Raise (Exception e) => failed e
    | Raise (SystemExit code) => (Raise (SystemExit code), sent)
    end.
Proof.
  unfold load_inputs, review_with_key, bind.
  destruct (load_ai_dev_kit_knowledge fs w0) as [[k|e] w1]; [|discriminate].
  destruct (load_pr_diff fs w1) as [[d|e] w2]; [|discriminate].
  destruct (load_changed_files_content fs w2) as [[c|e] w3]; [|discriminate].
  unfold ret. intros [= -> -> -> ->].
  unfold try_except, bind, messages_create, request_of, pr_number_of,
    comment_body_of.
  destruct (api _) as [[|block rest]|[e|code]]; reflexivity.
Qed.

(** The script when a loader raises: the exception reaches the top. *)
Lemma review_with_key_load_fails api_key e w :
  load_inputs fs w0 = (Raise e, w) ->
  review_with_key env fs api api_key w0 = (Raise e, w).
Proof.
  unfold load_inputs, review_with_key, bind.
  destruct (load_ai_dev_kit_knowledge fs w0) as [[k|e1] w1];
    [|now intros [= -> ->]].
  destruct (load_pr_diff fs w1) as [[d|e2] w2]; [|now intros [= -> ->]].
  destruct (load_changed_files_content fs w2) as [[c|e3] w3];
    [discriminate|now intros [= -> ->]].
Qed.

Lemma run_with_key api_key :
  env (text "ANTHROPIC_API_KEY") = Some api_key ->
  truthy api_key = true ->
  run_claude_review env fs api = review_with_key env fs api api_key.
Proof.
  intros Hkey Ht. unfold run_claude_review, os.environ_get. rewrite Hkey.
  destruct api_key; [discriminate|reflexivity].
Qed.

(** Without a credential, or with an empty one, the script writes the
    configuration message and returns. *)
Lemma run_without_key :
  match env (text "ANTHROPIC_API_KEY") with
  | Some api_key => truthy api_key = false
  | None => True
  end ->
  main env fs api
  = mkOutcome 0 None (mkWorld [] [(review_result_md, missing_key_msg)] []).
Proof.
  unfold main, run_claude_review, os.environ_get.
  destruct (env (text "ANTHROPIC_API_KEY")) as [[|c k]|]; intros H;
    try discriminate; reflexivity.
Qed.

End Run.

(** ** Occurrences *)

Lemma startswith_app (e b : str) : startswith (e ++ b) e = true.
Proof.
  induction e as [|c e IH]; simpl; [now destruct b|].
  now rewrite N.eqb_refl, IH.
Qed.

Lemma find_unfold (s sub : str) :
  find s sub
  = if startswith s sub then Some 0
    else match s with
         | [] => None
         | _ :: t => option_map S (find t sub)
         end.
Proof. now destruct s. Qed.

Lemma find_app (a e b : str) : exists i, find (a ++ e ++ b) e = Some i.
Proof.
  induction a as [|c a [i Hi]].
  - exists 0. simpl app. now rewrite find_unfold, startswith_app.
  - rewrite find_unfold.
    destruct (startswith ((c :: a) ++ e ++ b) e); [now exists 0|].
    exists (S i). simpl app. cbv beta iota. now rewrite Hi.
Qed.

Lemma contains_app (a e b : str) : contains (a ++ e ++ b) e = true.
Proof. unfold contains. now destruct (find_app a e b) as [i ->]. Qed.

(** ** The claims on the run *)

(** C4: when [ANTHROPIC_API_KEY] is not in the environment, the run ends
    with status 0 and without a traceback, has written the fixed
    configuration message to the output path and nothing else, has
    printed nothing and has sent no request. *)
Theorem missing_credential (env : environ) (fs : filesystem)
        (api : request -> result response) :
  env (text "ANTHROPIC_API_KEY") = None ->
  main env fs api
  = mkOutcome 0 None (mkWorld [] [(review_result_md, missing_key_msg)] []).
Proof. intros H. apply run_without_key. now rewrite H. Qed.

Lemma missing_credential_witness :
  main env_no_key fs_games api_lgtm
  = mkOutcome 0 None (mkWorld [] [(review_result_md, missing_key_msg)] []).
Proof. apply (missing_credential env_no_key fs_games api_lgtm). reflexivity. Defined.

(** C10: two runs without [ANTHROPIC_API_KEY] end the same way, whatever
    the other variables, the filesystems and the endpoints are. *)
Theorem missing_credential_constant
        (env1 env2 : environ) (fs1 fs2 : filesystem)
        (api1 api2 : request -> result response) :
  env1 (text "ANTHROPIC_API_KEY") = None ->
  env2 (text "ANTHROPIC_API_KEY") = None ->
  main env1 fs1 api1 = main env2 fs2 api2
  /\ written (effects (main env1 fs1 api1))
     = [(review_result_md, missing_key_msg)].
Proof.
  intros H1 H2.
  rewrite (run_without_key env1 fs1 api1), (run_without_key env2 fs2 api2);
    [split; reflexivity| now rewrite H2 | now rewrite H1].
Qed.

Lemma missing_credential_constant_witness :
  main env_no_key fs_games api_lgtm = main (env_of []) (fs_of []) api_down
  /\ written (effects (main env_no_key fs_games api_lgtm))
     = [(review_result_md, missing_key_msg)].
Proof.
  apply (missing_credential_constant env_no_key (env_of []) fs_games (fs_of [])
           api_lgtm api_down); reflexivity.
Defined.

(** C5: when the credential is set, the loaders have returned and the
    request is answered with an exception, the run ends with status 1,
    without a traceback, and what it has written to the output path is
    the failure document, in which the text of the exception occurs. *)
Theorem invocation_failure (env : environ) (fs : filesystem)
        (api : request -> result response)
        (api_key knowledge pr_diff changed_files e : str) (w : world) :
  env (text "ANTHROPIC_API_KEY") = Some api_key ->
  truthy api_key = true ->
  load_inputs fs w0 = (Ok (knowledge, pr_diff, changed_files), w) ->
  api (request_of env api_key knowledge pr_diff changed_files)
  = Raise (Exception e) ->
  exit_status (main env fs api) = 1%N
  /\ traceback (main env fs api) = None
  /\ written (effects (main env fs api))
     = [(review_result_md, failure_document e)]
  /\ contains (failure_document e) e = true.
Proof.
  intros Hkey Ht Hload Hapi.
  destruct (load_inputs_logs _ _ _ _ Hload) as [ls ->].
  unfold main. rewrite (run_with_key env fs api api_key Hkey Ht).
  rewrite (review_with_key_loaded env fs api api_key _ _ _ _ Hload).
  cbv zeta. rewrite Hapi. simpl.
  repeat split. apply contains_app.
Qed.

Lemma invocation_failure_witness :
  exit_status (main env_key (fs_of []) api_down) = 1%N
  /\ traceback (main env_key (fs_of []) api_down) = None
  /\ written (effects (main env_key (fs_of []) api_down))
     = [(review_result_md, failure_document (text "Connection error."))]
  /\ contains (failure_document (text "Connection error."))
              (text "Connection error.") = true.
Proof.
  apply (invocation_failure env_key (fs_of []) api_down (text "sk-test")
           [] [] [] (text "Connection error.") w0); vm_compute; reflexivity.
Defined.

(** C9: when the credential is set, the comment does not name the
    keyword and the loaders have returned, the run sends exactly one
    request, and its user message carries the fallback sentence where
    the instruction goes. *)
Theorem no_trigger_still_invokes (env : environ) (fs : filesystem)
        (api : request -> result response)
        (api_key knowledge pr_diff changed_files : str) (w : world) :
  env (text "ANTHROPIC_API_KEY") = Some api_key ->
  truthy api_key = true ->
  contains (lower (comment_body_of env)) trigger = false ->
  load_inputs fs w0 = (Ok (knowledge, pr_diff, changed_files), w) ->
  api_calls (effects (main env fs api))
  = [ mkRequest api_key model_id 4096 (system_prompt_of knowledge)
        [(text "user",
          user_message_1 ++ pr_number_of env ++ user_message_2
            ++ instruction_fallback
            ++ user_message_3
            ++ (if truthy pr_diff then firstn diff_limit pr_diff
                else diff_fallback)
            ++ user_message_4
            ++ (if truthy changed_files
                then firstn changed_files_limit changed_files
                else changed_files_fallback)
            ++ user_message_5)] ].
Proof.
  intros Hkey Ht Hno Hload.
  destruct (load_inputs_logs _ _ _ _ Hload) as [ls ->].
  unfold main. rewrite (run_with_key env fs api api_key Hkey Ht).
  rewrite (review_with_key_loaded env fs api api_key _ _ _ _ Hload).
  cbv zeta. unfold request_of.
  rewrite (user_instruction_of_absent _ Hno).
  destruct (api _) as [[|block rest]|[e|code]]; reflexivity.
Qed.

Lemma no_trigger_still_invokes_witness :
  api_calls (effects (main env_no_trigger (fs_of []) api_lgtm))
  = [ mkRequest (text "sk-test") model_id 4096 (system_prompt_of [])
        [(text "user",
          user_message_1 ++ pr_number_of env_no_trigger ++ user_message_2
            ++ instruction_fallback
            ++ user_message_3
            ++ (if truthy [] then firstn diff_limit [] else diff_fallback)
            ++ user_message_4
            ++ (if truthy [] then firstn changed_files_limit []
                else changed_files_fallback)
            ++ user_message_5)] ].
Proof.
  apply (no_trigger_still_invokes env_no_trigger (fs_of []) api_lgtm
           (text "sk-test") [] [] [] w0); vm_compute; reflexivity.
Defined.

(** ** Loaders and sources that cannot be read *)

(** An unreadable knowledge file costs its block and a warning. *)
Lemma load_ai_dev_kit_knowledge_never_raises (fs : filesystem) (w : world) :
  exists knowledge, fst (load_ai_dev_kit_knowledge fs w) = Ok knowledge.
Proof. rewrite load_ai_dev_kit_knowledge_eq. eexists. reflexivity. Qed.

(** X17: a diff file that exists and cannot be read makes the loader
    raise, and the run ends on that exception before anything is written. *)
Lemma unreadable_diff_uncaught (env : environ) (fs : filesystem)
      (api : request -> result response) (api_key err : str) :
  env (text "ANTHROPIC_API_KEY") = Some api_key ->
  truthy api_key = true ->
  fs diff_file = Some (Unreadable err) ->
  exit_status (main env fs api) = 1%N
  /\ traceback (main env fs api) = Some err
  /\ written (effects (main env fs api)) = []
  /\ api_calls (effects (main env fs api)) = [].
Proof.
  intros Hkey Ht Hd.
  destruct (load_ai_dev_kit_knowledge_logs fs w0) as (k & ls & Hk).
  assert (Hload : load_inputs fs w0 = (Raise (Exception err), logged w0 ls)).
  { unfold load_inputs, bind. rewrite Hk, load_pr_diff_eq, Hd.
    unfold read_error. now rewrite Hd. }
  unfold main. rewrite (run_with_key env fs api api_key Hkey Ht).
  rewrite (review_with_key_load_fails env fs api api_key _ _ Hload).
  repeat split.
Qed.

(** C2, on a diff file and on a changed-file list that exist and cannot
    be opened: the loader raises, and the run with the credential set ends
    with a traceback and status 1, having written no document and sent no
    request. *)
Theorem unreadable_source_aborts :
  load_pr_diff fs_diff_unreadable w0
  = (Raise (Exception (permission_denied diff_file)), w0)
  /\ main env_key fs_diff_unreadable api_lgtm
     = mkOutcome 1 (Some (permission_denied diff_file)) w0
  /\ load_changed_files_content fs_list_unreadable w0
     = (Raise (Exception (permission_denied files_list)), w0)
  /\ main env_key fs_list_unreadable api_lgtm
     = mkOutcome 1 (Some (permission_denied files_list)) w0.
Proof. repeat split; vm_compute; reflexivity. Qed.

(** * Further properties of the script *)

(** ** How a run ends *)

Lemma load_changed_files_content_cases (fs : filesystem) (w : world) :
  exists ls,
    (exists changed_files,
        load_changed_files_content fs w = (Ok changed_files, logged w ls))
    \/ (exists err,
          load_changed_files_content fs w
          = (Raise (Exception err), logged w ls)).
Proof.
  destruct (fs files_list) as [[f|err|es]|] eqn:Hf.
  - rewrite (load_changed_files_content_eq fs f w Hf). eauto.
  - exists []. right. exists err.
    unfold load_changed_files_content, os.path_exists, read_text.
    now rewrite Hf, logged_nil.
  - exists []. right. eexists.
    unfold load_changed_files_content, os.path_exists, read_text.
    rewrite Hf, logged_nil. reflexivity.
  - exists []. left. exists [].
    now rewrite (load_changed_files_content_missing fs w Hf), logged_nil.
Qed.

(** The loaders return three texts or raise an [Exception]; either way
    they have only printed. *)
Lemma load_inputs_cases (fs : filesystem) (w : world) :
  exists ls,
    (exists knowledge pr_diff changed_files,
        load_inputs fs w
        = (Ok (knowledge, pr_diff, changed_files), logged w ls))
    \/ (exists err, load_inputs fs w = (Raise (Exception err), logged w ls)).
Proof.
  unfold load_inputs, bind.
  rewrite load_ai_dev_kit_knowledge_eq. rewrite load_pr_diff_eq.
  set (l1 := flat_map (priority_warning fs) priority_files
               ++ flat_map (pattern_warning fs) (glob_md fs patterns_dir)).
  destruct (fs diff_file) as [[d|err|es]|].
  - destruct (load_changed_files_content_cases fs (logged w l1))
      as [l3 [[c ->]|[err ->]]]; rewrite logged_logged; unfold ret; eauto 8.
  - exists l1. right. eauto.
  - exists l1. right. eauto.
  - destruct (load_changed_files_content_cases fs (logged w l1))
      as [l3 [[c ->]|[err ->]]]; rewrite logged_logged; unfold ret; eauto 8.
Qed.

Lemma review_with_key_answered (env : environ) (fs : filesystem)
      (api : request -> result response)
      (api_key knowledge pr_diff changed_files : str) (w : world) :
  load_inputs fs w0 = (Ok (knowledge, pr_diff, changed_files), w) ->
  review_with_key env fs api api_key w0
  = answered env (request_of env api_key knowledge pr_diff changed_files) w
             (api (request_of env api_key knowledge pr_diff changed_files)).
Proof.
  intros Hload.
  rewrite (review_with_key_loaded env fs api api_key _ _ _ _ Hload).
  cbv zeta. unfold answered.
  destruct (api _) as [[|block rest]|[e|code]]; reflexivity.
Qed.

Lemma credential_cases (env : environ) :
  (credential env = None
   /\ match env (text "ANTHROPIC_API_KEY") with
      | Some api_key => truthy api_key = false
      | None => True
      end)
  \/ (exists api_key,
         credential env = Some api_key
         /\ env (text "ANTHROPIC_API_KEY") = Some api_key
         /\ truthy api_key = true).
Proof.
  unfold credential.
  destruct (env (text "ANTHROPIC_API_KEY")) as [[|c k]|]; eauto 6.
Qed.

(** The three ways a run goes: no credential; the loaders return and the
    request is sent; a loader raises. *)
Lemma main_cases (env : environ) (fs : filesystem)
      (api : request -> result response) :
  (credential env = None
   /\ main env fs api
      = mkOutcome 0 None
                  (mkWorld [] [(review_result_md, missing_key_msg)] []))
  \/ (exists api_key knowledge pr_diff changed_files ls,
         credential env = Some api_key
         /\ load_inputs fs w0
            = (Ok (knowledge, pr_diff, changed_files), logged w0 ls)
         /\ run_claude_review env fs api w0
            = answered env
                (request_of env api_key knowledge pr_diff changed_files)
                (logged w0 ls)
                (api (request_of env api_key knowledge pr_diff
                                 changed_files)))
  \/ (exists api_key err ls,
         credential env = Some api_key
         /\ main env fs api = mkOutcome 1 (Some err) (logged w0 ls)).
Proof.
  destruct (credential_cases env) as [[Hc Hk]|(api_key & Hc & Hk & Ht)].
  - left. split; [exact Hc|]. now apply run_without_key.
  - right.
    destruct (load_inputs_cases fs w0)
      as [ls [(k & d & c & Hload)|(err & Hload)]].
    + left. exists api_key, k, d, c, ls. repeat split; try assumption.
      rewrite (run_with_key env fs api api_key Hk Ht).
      now apply review_with_key_answered.
    + right. exists api_key, err, ls. split; [exact Hc|].
      unfold main. rewrite (run_with_key env fs api api_key Hk Ht).
      now rewrite (review_with_key_load_fails env fs api api_key _ _ Hload).
Qed.

(** X1: when the credential is set, the loaders have returned and the
    request is answered with at least one content block, the run ends
    with status 0, has written the review document (header, pull-request
    number, the text of the first block, footer) to the output path, has
    printed the completion line last and has sent that one request. *)
Theorem review_written (env : environ) (fs : filesystem)
        (api : request -> result response)
        (api_key knowledge pr_diff changed_files block : str)
        (rest : list str) (w : world) :
  env (text "ANTHROPIC_API_KEY") = Some api_key ->
  truthy api_key = true ->
  load_inputs fs w0 = (Ok (knowledge, pr_diff, changed_files), w) ->
  api (request_of env api_key knowledge pr_diff changed_files)
  = Ok (block :: rest) ->
  main env fs api
  = mkOutcome 0 None
      (mkWorld (stdout w ++ [completed_line])
               [(review_result_md,
                 result_1 ++ pr_number_of env ++ result_2 ++ block
                   ++ result_3)]
               [request_of env api_key knowledge pr_diff changed_files]).
Proof.
  intros Hkey Ht Hload Hapi.
  destruct (load_inputs_logs _ _ _ _ Hload) as [ls ->].
  unfold main. rewrite (run_with_key env fs api api_key Hkey Ht).
  rewrite (review_with_key_answered env fs api api_key _ _ _ _ Hload).
  rewrite Hapi. reflexivity.
Qed.

Lemma review_written_witness :
  main env_key (fs_of []) api_lgtm
  = mkOutcome 0 None
      (mkWorld (stdout w0 ++ [completed_line])
               [(review_result_md,
                 result_1 ++ pr_number_of env_key ++ result_2 ++ text "LGTM"
                   ++ result_3)]
               [request_of env_key (text "sk-test") [] [] []]).
Proof.
  apply (review_written env_key (fs_of []) api_lgtm (text "sk-test")
           [] [] [] (text "LGTM") [] w0); vm_compute; reflexivity.
Defined.

(** X2: when the answer has no content block, indexing it fails inside
    the [try]: the run writes the failure document with the text of the
    index error and ends with status 1. *)
Theorem empty_response_fails (env : environ) (fs : filesystem)
        (api : request -> result response)
        (api_key knowledge pr_diff changed_files : str) (w : world) :
  env (text "ANTHROPIC_API_KEY") = Some api_key ->
  truthy api_key = true ->
  load_inputs fs w0 = (Ok (knowledge, pr_diff, changed_files), w) ->
  api (request_of env api_key knowledge pr_diff changed_files) = Ok [] ->
  exit_status (main env fs api) = 1%N
  /\ traceback (main env fs api) = None
  /\ written (effects (main env fs api))
     = [(review_result_md,
         failure_document (text "list index out of range"))].
Proof.
  intros Hkey Ht Hload Hapi.
  destruct (load_inputs_logs _ _ _ _ Hload) as [ls ->].
  unfold main. rewrite (run_with_key env fs api api_key Hkey Ht).
  rewrite (review_with_key_answered env fs api api_key _ _ _ _ Hload).
  rewrite Hapi. repeat split.
Qed.

Lemma empty_response_fails_witness :
  exit_status (main env_key (fs_of []) api_empty) = 1%N
  /\ traceback (main env_key (fs_of []) api_empty) = None
  /\ written (effects (main env_key (fs_of []) api_empty))
     = [(review_result_md,
         failure_document (text "list index out of range"))].
Proof.
  apply (empty_response_fails env_key (fs_of []) api_empty (text "sk-test")
           [] [] [] w0); vm_compute; reflexivity.
Defined.

(** X3: a credential that is set to the empty string counts as missing:
    the run writes the configuration message, sends no request and ends
    with status 0. *)
Theorem empty_credential (env : environ) (fs : filesystem)
        (api : request -> result response) :
  env (text "ANTHROPIC_API_KEY") = Some [] ->
  main env fs api
  = mkOutcome 0 None (mkWorld [] [(review_result_md, missing_key_msg)] []).
Proof. intros H. apply run_without_key. now rewrite H. Qed.

Lemma empty_credential_witness :
  main env_empty_key fs_games api_lgtm
  = mkOutcome 0 None (mkWorld [] [(review_result_md, missing_key_msg)] []).
Proof.
  apply (empty_credential env_empty_key fs_games api_lgtm).
  vm_compute; reflexivity.
Defined.

(** X4: whatever the environment, the filesystem and the endpoint, a run
    sends at most one request and writes at most one file, and only to
    the output path. *)
Theorem one_request_one_document (env : environ) (fs : filesystem)
        (api : request -> result response) :
  length (api_calls (effects (main env fs api))) <= 1
  /\ length (written (effects (main env fs api))) <= 1
  /\ Forall (fun file => fst file = review_result_md)
            (written (effects (main env fs api))).
Proof.
  destruct (main_cases env fs api)
    as [[_ ->]|[(key & k & d & c & ls & _ & _ & Hrun)|(key & err & ls & _ & ->)]].
  - simpl. repeat split; auto.
  - unfold main. rewrite Hrun. unfold answered.
    destruct (api _) as [[|block rest]|[e|code]]; simpl;
      repeat split; auto.
  - simpl. repeat split; auto.
Qed.

(** X5: every request a run sends carries the credential of the
    environment, which is not empty, the fixed model name, the budget of
    4096 tokens and a single message, of role [user]. *)
Theorem requests_well_formed (env : environ) (fs : filesystem)
        (api : request -> result response) :
  Forall (well_formed_request env) (api_calls (effects (main env fs api))).
Proof.
  destruct (main_cases env fs api)
    as [[_ ->]|[(key & k & d & c & ls & Hc & _ & Hrun)|(key & err & ls & _ & ->)]].
  - constructor.
  - assert (Hreq : well_formed_request env (request_of env key k d c))
      by (unfold well_formed_request; simpl; auto).
    unfold main. rewrite Hrun. unfold answered.
    destruct (api _) as [[|block rest]|[e|code]]; simpl; auto.
  - constructor.
Qed.

(** X6: when the endpoint does not raise [SystemExit], a run ends in one
    of three ways: with status 0 and one document, the configuration
    message or a review; with status 1 and the failure document, after
    one request; or, when a loader raised, with status 1, a traceback, no
    document and no request. *)
Theorem outcome_classes (env : environ) (fs : filesystem)
        (api : request -> result response) :
  (forall req code, api req <> Raise (SystemExit code)) ->
  let out := main env fs api in
  (exit_status out = 0%N /\ traceback out = None
   /\ (written (effects out) = [(review_result_md, missing_key_msg)]
       \/ exists block,
            written (effects out)
            = [(review_result_md, review_document (pr_number_of env) block)]))
  \/ (exit_status out = 1%N /\ traceback out = None
      /\ length (api_calls (effects out)) = 1
      /\ exists e,
           written (effects out) = [(review_result_md, failure_document e)])
  \/ (exit_status out = 1%N /\ traceback out <> None
      /\ written (effects out) = [] /\ api_calls (effects out) = []).
Proof.
  intros Hapi out. subst out.
  destruct (main_cases env fs api)
    as [[_ ->]|[(key & k & d & c & ls & _ & _ & Hrun)|(key & err & ls & _ & ->)]].
  - left. simpl. auto.
  - unfold main. rewrite Hrun. unfold answered.
    destruct (api (request_of env key k d c)) as [[|block rest]|[e|code]] eqn:Ha.
    + right; left. simpl. repeat split. eauto.
    + left. simpl. repeat split. right. eauto.
    + right; left. simpl. repeat split. eauto.
    + exfalso. exact (Hapi _ _ Ha).
  - right; right. simpl. repeat split. discriminate.
Qed.

Lemma outcome_classes_witness :
  exit_status (main env_key (fs_of []) api_lgtm) = 0%N
  \/ exit_status (main env_key (fs_of []) api_lgtm) = 1%N.
Proof.
  destruct (outcome_classes env_key (fs_of []) api_lgtm) as [H|[H|H]].
  - intros req code. discriminate.
  - left. apply H.
  - right. apply H.
  - right. apply H.
Defined.

(** ** The size of the prompts *)

Lemma slice_or_fallback_length (limit : nat) (s fallback : str) :
  length fallback <= limit ->
  length (if truthy s then firstn limit s else fallback) <= limit.
Proof.
  intros H. destruct (truthy s); [apply firstn_le_length|exact H].
Qed.

(** X7: an input that is not empty and within its limit enters the
    prompt whole: the knowledge blob up to 50,000 characters, the diff
    up to 30,000 and the changed-file text up to 20,000. *)
Theorem within_limit_whole :
  (forall knowledge,
     truthy knowledge = true ->
     (N.of_nat (length knowledge) <= 50000)%N ->
     system_prompt_of knowledge
     = system_prompt_head ++ knowledge ++ system_prompt_tail)
  /\ (forall pr_number user_instruction pr_diff changed_files,
        truthy pr_diff = true ->
        (N.of_nat (length pr_diff) <= 30000)%N ->
        truthy changed_files = true ->
        (N.of_nat (length changed_files) <= 20000)%N ->
        user_message_of pr_number user_instruction pr_diff changed_files
        = user_message_1 ++ pr_number ++ user_message_2
            ++ (if truthy user_instruction then user_instruction
                else instruction_fallback)
            ++ user_message_3 ++ pr_diff
            ++ user_message_4 ++ changed_files
            ++ user_message_5).
Proof.
  split.
  - intros k Ht Hl. unfold system_prompt_of, knowledge_limit.
    rewrite Ht, firstn_all2 by lia. reflexivity.
  - intros pr ins d c Hd Hdl Hc Hcl.
    unfold user_message_of, diff_limit, changed_files_limit.
    rewrite Hd, Hc, !firstn_all2 by lia. reflexivity.
Qed.

Lemma within_limit_whole_witness :
  system_prompt_of (text "K")
  = system_prompt_head ++ text "K" ++ system_prompt_tail
  /\ user_message_of (text "7") [] (text "D") (text "C")
     = user_message_1 ++ text "7" ++ user_message_2
         ++ (if truthy [] then [] else instruction_fallback)
         ++ user_message_3 ++ text "D"
         ++ user_message_4 ++ text "C"
         ++ user_message_5.
Proof.
  destruct within_limit_whole as [Hk Hm]. split.
  - apply Hk; vm_compute; [reflexivity|discriminate].
  - apply Hm; vm_compute; try reflexivity; discriminate.
Defined.

(** X8: the system prompt never has more than 50,448 characters, and the
    user message never more than 50,104 beyond the pull-request number
    and the instruction, which enter it in full. *)
Theorem prompt_sizes_bounded :
  (forall knowledge,
     (N.of_nat (length (system_prompt_of knowledge)) <= 50448)%N)
  /\ (forall pr_number user_instruction pr_diff changed_files,
        (N.of_nat (length (user_message_of pr_number user_instruction
                                           pr_diff changed_files))
         <= N.of_nat (length pr_number)
            + N.of_nat (length user_instruction) + 50104)%N).
Proof.
  split.
  - intros k. unfold system_prompt_of. rewrite !length_app.
    assert (Hm := slice_or_fallback_length knowledge_limit k
                    knowledge_fallback).
    assert (H1 : length system_prompt_head = 107) by reflexivity.
    assert (H2 : length system_prompt_tail = 341) by reflexivity.
    assert (H3 : length knowledge_fallback = 28) by reflexivity.
    assert (HL : knowledge_limit = N.to_nat 50000) by reflexivity.
    lia.
  - intros pr ins d c. unfold user_message_of. rewrite !length_app.
    assert (Hd := slice_or_fallback_length diff_limit d diff_fallback).
    assert (Hc := slice_or_fallback_length changed_files_limit c
                    changed_files_fallback).
    assert (Hi : length (if truthy ins then ins else instruction_fallback)
                 <= length ins + 15)
      by (destruct (truthy ins);
          [lia|change (length instruction_fallback) with 15; lia]).
    assert (H1 : length user_message_1 = 20) by reflexivity.
    assert (H2 : length user_message_2 = 19) by reflexivity.
    assert (H3 : length user_message_3 = 21) by reflexivity.
    assert (H4 : length user_message_4 = 18) by reflexivity.
    assert (H5 : length user_message_5 = 11) by reflexivity.
    assert (H6 : length diff_fallback = 11) by reflexivity.
    assert (H7 : length changed_files_fallback = 11) by reflexivity.
    assert (HD : diff_limit = N.to_nat 30000) by reflexivity.
    assert (HC : changed_files_limit = N.to_nat 20000) by reflexivity.
    lia.
Qed.

(** ** Sources that cannot be read *)

Lemma flat_map_length_le {A B} (g : A -> list B) (xs : list A) :
  (forall x, length (g x) <= 1) -> length (flat_map g xs) <= length xs.
Proof.
  intros Hg. induction xs as [|x xs IH]; simpl; [lia|].
  rewrite length_app. specialize (Hg x). lia.
Qed.

Lemma priority_warning_le fs rel_path :
  length (priority_warning fs rel_path) <= 1.
Proof.
  unfold priority_warning, read_error.
  destruct (fs (os.path_join ai_dev_kit_path rel_path)) as [[c|e|es]|];
    simpl; lia.
Qed.

Lemma pattern_warning_le fs pattern_file :
  length (pattern_warning fs pattern_file) <= 1.
Proof.
  unfold pattern_warning, read_error.
  destruct (fs pattern_file) as [[c|e|es]|]; simpl; lia.
Qed.

(** X9: on every filesystem the knowledge loader returns a blob; it
    writes no file and sends no request, and prints at most one warning
    for each priority file and for each file the glob matches. *)
Theorem knowledge_loader_tolerant (fs : filesystem) (w : world) :
  exists knowledge ls,
    load_ai_dev_kit_knowledge fs w = (Ok knowledge, logged w ls)
    /\ length ls <= length priority_files
                    + length (glob_md fs patterns_dir).
Proof.
  rewrite load_ai_dev_kit_knowledge_eq. eexists. eexists.
  split; [reflexivity|].
  rewrite length_app.
  assert (H1 := flat_map_length_le (priority_warning fs) priority_files
                  (priority_warning_le fs)).
  assert (H2 := flat_map_length_le (pattern_warning fs)
                  (glob_md fs patterns_dir) (pattern_warning_le fs)).
  lia.
Qed.

Lemma Ok_inj {A} (a b : A) : Ok a = Ok b -> a = b.
Proof. congruence. Qed.

Lemma join_empty (sep : str) (parts : list str) :
  Forall (fun part => part <> []) parts ->
  join sep parts = [] -> parts = [].
Proof.
  intros Hne Hj. destruct parts as [|p rest]; [reflexivity|].
  exfalso. inversion Hne as [|? ? Hp _]; subst.
  destruct p as [|c p]; [now apply Hp|].
  destruct rest; discriminate Hj.
Qed.

Lemma map_filter_empty {A B} (f : A -> B) (c : A -> bool) (xs : list A) :
  map f (filter c xs) = [] <-> (forall x, In x xs -> c x = false).
Proof.
  split.
  - intros H x Hin. destruct (c x) eqn:Hc; [|reflexivity].
    assert (Hf : In x (filter c xs)) by (apply filter_In; auto).
    destruct (filter c xs); [contradiction|discriminate].
  - intros H. now rewrite (filter_none c xs H).
Qed.

(** X10: the knowledge blob is empty, and the system prompt carries the
    fallback sentence, exactly when no priority file and no file the glob
    matches is read; one source that is read makes it non-empty. *)
Theorem knowledge_empty_iff (fs : filesystem) (w : world) :
  fst (load_ai_dev_kit_knowledge fs w) = Ok []
  <-> (forall rel_path, In rel_path priority_files ->
         priority_readable fs rel_path = false)
      /\ (forall pattern_file, In pattern_file (glob_md fs patterns_dir) ->
            readable fs pattern_file = false).
Proof.
  rewrite load_ai_dev_kit_knowledge_eq. cbv [fst].
  split.
  - intros Hj. apply Ok_inj in Hj. apply join_empty in Hj.
    + apply app_eq_nil in Hj. destruct Hj as [H1 H2].
      split; [exact (proj1 (map_filter_empty _ _ _) H1)
             |exact (proj1 (map_filter_empty _ _ _) H2)].
    + apply Forall_app. split; apply Forall_forall; intros part Hin;
        apply in_map_iff in Hin; destruct Hin as (x & <- & _); discriminate.
  - intros [H1 H2].
    rewrite (proj2 (map_filter_empty (priority_block fs) _ _) H1).
    rewrite (proj2 (map_filter_empty (pattern_block fs) _ _) H2).
    reflexivity.
Qed.

Lemma knowledge_empty_iff_witness :
  fst (load_ai_dev_kit_knowledge (fs_of []) w0) = Ok [].
Proof.
  apply (proj2 (knowledge_empty_iff (fs_of []) w0)).
  split; intros p _; reflexivity.
Defined.

(** ** More on the changed-file loader *)

Lemma for_each_ext {A S} (xs : list A) (b1 b2 : A -> S -> M S) :
  (forall x s w, b1 x s w = b2 x s w) ->
  forall s w, for_each xs s b1 w = for_each xs s b2 w.
Proof.
  intros Hb. induction xs as [|x xs IH]; intros s w; simpl; [reflexivity|].
  unfold bind. rewrite Hb. destruct (b2 x s w) as [[s'|e] w']; auto.
Qed.

Lemma load_changed_file_agree (fs1 fs2 : filesystem) :
  (forall path, game_file path = true -> fs1 path = fs2 path) ->
  forall filepath contents w,
    load_changed_file fs1 filepath contents w
    = load_changed_file fs2 filepath contents w.
Proof.
  intros Hg filepath contents w. unfold load_changed_file.
  destruct (game_file filepath) eqn:Hf; [|reflexivity].
  unfold os.path_exists, read_text. now rewrite (Hg filepath Hf).
Qed.

(** X11: the changed-file loader looks at the list file and at paths that
    pass the filter, and at nothing else: on two filesystems that agree
    there it returns and prints the same. *)
Theorem changed_files_only_games (fs1 fs2 : filesystem) (w : world) :
  fs1 files_list = fs2 files_list ->
  (forall path, game_file path = true -> fs1 path = fs2 path) ->
  load_changed_files_content fs1 w = load_changed_files_content fs2 w.
Proof.
  intros Hl Hg. unfold load_changed_files_content, os.path_exists, read_text.
  rewrite Hl. destruct (fs2 files_list) as [[f|err|es]|]; try reflexivity.
  change (negb true) with false. cbv iota.
  unfold bind at 1 3. unfold ret at 1 3. cbv beta iota.
  unfold bind.
  rewrite (for_each_ext _ _ _ (load_changed_file_agree fs1 fs2 Hg)).
  reflexivity.
Qed.

Lemma changed_files_only_games_witness :
  load_changed_files_content fs_games w0
  = load_changed_files_content fs_games_no_readme w0.
Proof.
  apply (changed_files_only_games fs_games fs_games_no_readme w0).
  - reflexivity.
  - intros path Hg. unfold fs_games_no_readme, str_eqb.
    destruct (str_eq_dec path (text "README.md")) as [->|_];
      [vm_compute in Hg; discriminate Hg|reflexivity].
Defined.

Lemma changed_file_warning_le fs filepath :
  length (changed_file_warning fs filepath) <= 1.
Proof.
  unfold changed_file_warning, read_error.
  destruct (game_file filepath); [|simpl; lia].
  destruct (fs filepath) as [[c|e|es]|]; simpl; lia.
Qed.

(** X12: once the list file is read, the changed-file loader returns:
    a listed file that cannot be read costs a warning, at most one for
    each listed path, and no file is written and no request sent. *)
Theorem changed_file_loader_tolerant (fs : filesystem) (w : world) (f : str) :
  fs files_list = Some (File f) ->
  exists changed_files ls,
    load_changed_files_content fs w = (Ok changed_files, logged w ls)
    /\ length ls <= length (listed_paths f).
Proof.
  intros Hf. rewrite (load_changed_files_content_eq fs f w Hf).
  eexists. eexists. split; [reflexivity|].
  apply flat_map_length_le. apply changed_file_warning_le.
Qed.

Lemma changed_file_loader_tolerant_witness :
  exists changed_files ls,
    load_changed_files_content fs_games w0 = (Ok changed_files, logged w0 ls)
    /\ length ls <= length (listed_paths (content_of fs_games files_list)).
Proof.
  apply (changed_file_loader_tolerant fs_games w0
           (content_of fs_games files_list)).
  vm_compute. reflexivity.
Defined.

(** ** Paths *)

Lemma until_slash_all (a : str) : ~ In os.slash a -> os.until_slash a = a.
Proof.
  induction a as [|c a IH]; intros Hn; simpl; [reflexivity|].
  destruct (N.eqb_spec c os.slash) as [->|_].
  - exfalso. apply Hn. now left.
  - rewrite IH; [reflexivity|]. intros Hin. apply Hn. now right.
Qed.

Lemma until_slash_app (a b : str) :
  ~ In os.slash a -> os.until_slash (a ++ os.slash :: b) = a.
Proof.
  induction a as [|c a IH]; intros Hn; [reflexivity|simpl].
  destruct (N.eqb_spec c os.slash) as [->|_].
  - exfalso. apply Hn. now left.
  - rewrite IH; [reflexivity|]. intros Hin. apply Hn. now right.
Qed.

Lemma startswith_slash (s : str) :
  startswith s [os.slash] = true -> exists t, s = os.slash :: t.
Proof.
  destruct s as [|c t]; simpl; [discriminate|].
  destruct (N.eqb_spec c os.slash) as [->|_]; [eauto|discriminate].
Qed.

(** X13: joining a directory and a name without a slash and taking the
    base name gives the name back, so the heading of a pattern block is
    the name of the directory entry. *)
Theorem basename_join (dir name : str) :
  ~ In os.slash name ->
  os.path_basename (os.path_join dir name) = name.
Proof.
  intros Hn.
  assert (Hr : ~ In os.slash (rev name))
    by (intros Hin; apply Hn; now apply in_rev).
  unfold os.path_basename, os.path_join.
  destruct (startswith name [os.slash]) eqn:Hs.
  - apply startswith_slash in Hs. destruct Hs as [t ->].
    exfalso. apply Hn. now left.
  - destruct (negb (truthy dir) || endswith dir [os.slash]) eqn:Hd.
    + rewrite rev_app_distr.
      apply orb_true_iff in Hd. destruct Hd as [Hd|Hd].
      * destruct dir; [|discriminate Hd]. simpl rev. rewrite app_nil_r.
        rewrite (until_slash_all _ Hr). apply rev_involutive.
      * unfold endswith in Hd. apply startswith_slash in Hd.
        destruct Hd as [t ->].
        rewrite (until_slash_app _ t Hr). apply rev_involutive.
    + rewrite !rev_app_distr. simpl rev at 2. rewrite <- app_assoc.
      simpl app. rewrite (until_slash_app _ _ Hr). apply rev_involutive.
Qed.

Lemma basename_join_witness :
  os.path_basename (os.path_join patterns_dir (text "ui.md")) = text "ui.md".
Proof.
  apply (basename_join patterns_dir (text "ui.md")).
  vm_compute. intros H.
  repeat (destruct H as [H|H]; [discriminate H|]). exact H.
Defined.

(** ** More on the instruction *)

Lemma startswith_split (s p : str) :
  startswith s p = true -> s = p ++ skipn (length p) s.
Proof.
  revert s. induction p as [|c p IH]; intros s H; [reflexivity|].
  destruct s as [|d s]; simpl in H; [discriminate|].
  apply andb_true_iff in H. destruct H as [Hc Hs].
  apply N.eqb_eq in Hc. subst d. simpl. f_equal. now apply IH.
Qed.

Lemma find_first (s sub : str) (i : nat) :
  find s sub = Some i ->
  i <= length s
  /\ startswith (skipn i s) sub = true
  /\ (forall j, j < i -> startswith (skipn j s) sub = false).
Proof.
  revert i. induction s as [|c s IH]; intros i; rewrite find_unfold.
  - destruct (startswith [] sub) eqn:Hs; [|discriminate].
    intros [= <-]. repeat split; [lia|exact Hs|lia].
  - destruct (startswith (c :: s) sub) eqn:Hs.
    + intros [= <-]. repeat split; [simpl; lia|exact Hs|lia].
    + destruct (find s sub) as [i'|]; [|discriminate].
      intros [= <-]. destruct (IH i' eq_refl) as (Hle & Hat & Hbefore).
      repeat split; [simpl; lia|exact Hat|].
      intros [|j] Hj; [exact Hs|]. simpl. apply Hbefore. lia.
Qed.

(** X15: when the keyword occurs, the lowercased comment is some text,
    the keyword and a remainder, the keyword starts nowhere earlier, and
    the instruction is the trimmed remainder: the cut is at the first
    occurrence, and later ones stay in the instruction. *)
Theorem instruction_after_first_occurrence (comment_body : str) :
  contains (lower comment_body) trigger = true ->
  exists before after,
    lower comment_body = before ++ trigger ++ after
    /\ (forall j, j < length before ->
          startswith (skipn j (lower comment_body)) trigger = false)
    /\ user_instruction_of comment_body = strip after.
Proof.
  intros Hc. unfold user_instruction_of, split1. rewrite Hc.
  unfold contains in Hc.
  destruct (find (lower comment_body) trigger) as [i|] eqn:Hf;
    [|discriminate].
  destruct (find_first _ _ _ Hf) as (Hle & Hat & Hbefore).
  exists (firstn i (lower comment_body)),
         (skipn (i + length trigger) (lower comment_body)).
  split; [|split].
  - rewrite <- (firstn_skipn i (lower comment_body)) at 1. f_equal.
    rewrite (startswith_split _ _ Hat) at 1. f_equal.
    rewrite skipn_skipn. f_equal. lia.
  - intros j Hj. apply Hbefore. rewrite length_firstn in Hj. lia.
  - reflexivity.
Qed.

Lemma instruction_after_first_occurrence_witness :
  exists before after,
    lower (text "cc @Claude fix @claude") = before ++ trigger ++ after
    /\ (forall j, j < length before ->
          startswith (skipn j (lower (text "cc @Claude fix @claude")))
                     trigger = false)
    /\ user_instruction_of (text "cc @Claude fix @claude") = strip after.
Proof.
  apply (instruction_after_first_occurrence (text "cc @Claude fix @claude")).
  vm_compute. reflexivity.
Defined.

Lemma lstrip_spaces (s : str) : forallb isspace s = true -> lstrip s = [].
Proof.
  induction s as [|c s IH]; simpl; [reflexivity|].
  intros H. apply andb_true_iff in H. destruct H as [-> Hs]. now apply IH.
Qed.

Lemma strip_spaces (s : str) : forallb isspace s = true -> strip s = [].
Proof. intros H. unfold strip, rstrip. now rewrite (lstrip_spaces s H). Qed.

(** X16: when only whitespace follows the first occurrence of the
    keyword, the instruction is empty and the user message carries the
    fallback sentence in its place. *)
Theorem bare_mention_falls_back (comment_body : str) (i : nat) :
  find (lower comment_body) trigger = Some i ->
  forallb isspace (skipn (i + length trigger) comment_body) = true ->
  user_instruction_of comment_body = []
  /\ forall pr_number pr_diff changed_files,
       user_message_of pr_number (user_instruction_of comment_body)
                       pr_diff changed_files
       = user_message_1 ++ pr_number ++ user_message_2
           ++ instruction_fallback
           ++ user_message_3
           ++ (if truthy pr_diff then firstn diff_limit pr_diff
               else diff_fallback)
           ++ user_message_4
           ++ (if truthy changed_files
               then firstn changed_files_limit changed_files
               else changed_files_fallback)
           ++ user_message_5.
Proof.
  intros Hf Hs.
  assert (Hi : user_instruction_of comment_body = []).
  { unfold user_instruction_of, contains, split1. rewrite Hf.
    change (strip (skipn (i + length trigger) (lower comment_body)) = []).
    unfold lower at 1. rewrite skipn_map.
    fold (lower (skipn (i + length trigger) comment_body)).
    now rewrite strip_lower, (strip_spaces _ Hs). }
  split; [exact Hi|]. intros pr d c. now rewrite Hi.
Qed.

Lemma bare_mention_falls_back_witness :
  user_instruction_of bare_mention = [].
Proof.
  apply (bare_mention_falls_back bare_mention 0); vm_compute; reflexivity.
Defined.

(** ** Missing and unreadable inputs, on the whole run *)

Lemma unreadable_diff_uncaught_witness :
  exit_status (main env_key fs_diff_unreadable api_lgtm) = 1%N
  /\ traceback (main env_key fs_diff_unreadable api_lgtm)
     = Some (permission_denied diff_file)
  /\ written (effects (main env_key fs_diff_unreadable api_lgtm)) = []
  /\ api_calls (effects (main env_key fs_diff_unreadable api_lgtm)) = [].
Proof.
  apply (unreadable_diff_uncaught env_key fs_diff_unreadable api_lgtm
           (text "sk-test") (permission_denied diff_file));
    vm_compute; reflexivity.
Defined.

(** X18: a changed-file list that exists and cannot be read, the diff
    being absent or read, ends the run on the exception of the read:
    status 1, a traceback, no document, no request. *)
Theorem unreadable_list_uncaught (env : environ) (fs : filesystem)
        (api : request -> result response) (api_key err : str) :
  env (text "ANTHROPIC_API_KEY") = Some api_key ->
  truthy api_key = true ->
  fs diff_file = None \/ readable fs diff_file = true ->
  fs files_list = Some (Unreadable err) ->
  exit_status (main env fs api) = 1%N
  /\ traceback (main env fs api) = Some err
  /\ written (effects (main env fs api)) = []
  /\ api_calls (effects (main env fs api)) = [].
Proof.
  intros Hkey Ht Hd Hl.
  destruct (load_ai_dev_kit_knowledge_logs fs w0) as (k & ls & Hk).
  assert (Hload : load_inputs fs w0 = (Raise (Exception err), logged w0 ls)).
  { unfold load_inputs, bind. rewrite Hk, load_pr_diff_eq.
    assert (Hc : load_changed_files_content fs (logged w0 ls)
                 = (Raise (Exception err), logged w0 ls)).
    { unfold load_changed_files_content, os.path_exists, read_text.
      now rewrite Hl. }
    unfold readable in Hd.
    destruct (fs diff_file) as [[c|e|es]|];
      try (destruct Hd; discriminate); now rewrite Hc. }
  unfold main. rewrite (run_with_key env fs api api_key Hkey Ht).
  rewrite (review_with_key_load_fails env fs api api_key _ _ Hload).
  repeat split.
Qed.

Lemma unreadable_list_uncaught_witness :
  exit_status (main env_key fs_list_unreadable api_lgtm) = 1%N
  /\ traceback (main env_key fs_list_unreadable api_lgtm)
     = Some (permission_denied files_list)
  /\ written (effects (main env_key fs_list_unreadable api_lgtm)) = []
  /\ api_calls (effects (main env_key fs_list_unreadable api_lgtm)) = [].
Proof.
  apply (unreadable_list_uncaught env_key fs_list_unreadable api_lgtm
           (text "sk-test") (permission_denied files_list));
    try (vm_compute; reflexivity).
  left. vm_compute. reflexivity.
Defined.

(** X19: when the credential is set and none of the inputs exists (no
    priority file, nothing for the glob, no diff file, no list file),
    the run still sends its request, with the three fallback sentences
    in the places of the knowledge, the diff and the changed files. *)
Theorem all_inputs_missing (env : environ) (fs : filesystem)
        (api : request -> result response) (api_key : str) :
  env (text "ANTHROPIC_API_KEY") = Some api_key ->
  truthy api_key = true ->
  (forall rel_path, In rel_path priority_files ->
     fs (os.path_join ai_dev_kit_path rel_path) = None) ->
  glob_md fs patterns_dir = [] ->
  fs diff_file = None ->
  fs files_list = None ->
  api_calls (effects (main env fs api))
  = [ mkRequest api_key model_id 4096
        (system_prompt_head ++ knowledge_fallback ++ system_prompt_tail)
        [(text "user",
          user_message_1 ++ pr_number_of env ++ user_message_2
            ++ (if truthy (user_instruction_of (comment_body_of env))
                then user_instruction_of (comment_body_of env)
                else instruction_fallback)
            ++ user_message_3 ++ diff_fallback
            ++ user_message_4 ++ changed_files_fallback
            ++ user_message_5)] ].
Proof.
  intros Hkey Ht Hprio Hglob Hd Hl.
  assert (Hload : load_inputs fs w0 = (Ok ([], [], []), w0)).
  { unfold load_inputs, bind.
    rewrite load_ai_dev_kit_knowledge_eq, Hglob.
    rewrite filter_none, flat_map_none; simpl.
    - rewrite logged_nil, load_pr_diff_eq, Hd.
      now rewrite (load_changed_files_content_missing fs w0 Hl).
    - intros rel Hin. unfold priority_warning. now rewrite (Hprio rel Hin).
    - intros rel Hin. unfold priority_readable, readable.
      now rewrite (Hprio rel Hin). }
  unfold main. rewrite (run_with_key env fs api api_key Hkey Ht).
  rewrite (review_with_key_answered env fs api api_key _ _ _ _ Hload).
  unfold answered.
  destruct (api _) as [[|block rest]|[e|code]]; reflexivity.
Qed.

Lemma all_inputs_missing_witness :
  api_calls (effects (main env_key (fs_of []) api_lgtm))
  = [ mkRequest (text "sk-test") model_id 4096
        (system_prompt_head ++ knowledge_fallback ++ system_prompt_tail)
        [(text "user",
          user_message_1 ++ pr_number_of env_key ++ user_message_2
            ++ (if truthy (user_instruction_of (comment_body_of env_key))
                then user_instruction_of (comment_body_of env_key)
                else instruction_fallback)
            ++ user_message_3 ++ diff_fallback
            ++ user_message_4 ++ changed_files_fallback
            ++ user_message_5)] ].
Proof.
  apply (all_inputs_missing env_key (fs_of []) api_lgtm (text "sk-test"));
    vm_compute; reflexivity.
Defined.
